(** * teuthology/provision.py: the Downburst provisioning controller

    A shallow embedding of [teuthology/provision.py] (Python 2: the text
    captured from a subprocess is a [str]).  The controller drives the
    external [downburst] tool; everything outside the process (the lock
    server, the file system, the password database, the tool itself) is an
    explicit environment [Env], and every effect the module performs
    (log records, temporary files, subprocess invocations, sleeps) is
    recorded in an explicit [World]. *)

From stdpp Require Import base option list strings pretty gmap.
From Stdlib Require Import ZArith Ascii String Lia.

Local Open Scope string_scope.
Local Open Scope Z_scope.

(** ** Python string operations used by the module *)

Module PyStr.

(** Truthiness of a [str]: the empty string is false. *)
Definition truthy (s : string) : bool :=
  match s with
  | EmptyString => false
  | String _ _ => true
  end.

(** [needle in hay]. *)
Fixpoint contains (needle hay : string) : bool :=
  String.prefix needle hay
  || match hay with
     | EmptyString => false
     | String _ rest => contains needle rest
     end.

(** [s.split(sep)] for a one-character separator: never an empty list. *)
Fixpoint split (sep : ascii) (s : string) : list string :=
  match s with
  | EmptyString => [EmptyString]
  | String c rest =>
      if Ascii.eqb c sep then EmptyString :: split sep rest
      else match split sep rest with
           | h :: t => String c h :: t
           | [] => [String c EmptyString]
           end
  end.

(** [sep in s] for a one-character separator. *)
Fixpoint has_char (sep : ascii) (s : string) : bool :=
  match s with
  | EmptyString => false
  | String c rest => Ascii.eqb c sep || has_char sep rest
  end.

(** [s.lower()] on a byte string: only A..Z change. *)
Definition lower_char (c : ascii) : ascii :=
  let n := nat_of_ascii c in
  if (65 <=? n)%nat && (n <=? 90)%nat then ascii_of_nat (n + 32) else c.

Fixpoint lower (s : string) : string :=
  match s with
  | EmptyString => EmptyString
  | String c rest => String (lower_char c) (lower rest)
  end.

(** [s.strip()]: whitespace is space, \t, \n, \v, \f, \r. *)
Definition is_space (c : ascii) : bool :=
  let n := nat_of_ascii c in
  (n =? 32)%nat || ((9 <=? n)%nat && (n <=? 13)%nat).

Fixpoint lstrip (s : string) : string :=
  match s with
  | EmptyString => EmptyString
  | String c rest => if is_space c then lstrip rest else s
  end.

Fixpoint rstrip (s : string) : string :=
  match s with
  | EmptyString => EmptyString
  | String c rest =>
      match rstrip rest with
      | EmptyString => if is_space c then EmptyString else String c EmptyString
      | r => String c r
      end
  end.

Definition strip (s : string) : string := rstrip (lstrip s).

(** [os.path.join(p, name)] of posixpath, for a relative [name]. *)
Fixpoint ends_with_slash (p : string) : bool :=
  match p with
  | EmptyString => false
  | String c EmptyString => Ascii.eqb c "/"
  | String _ rest => ends_with_slash rest
  end.

Definition path_join (p name : string) : string :=
  match p with
  | EmptyString => name
  | _ => if ends_with_slash p then p ++ name else p ++ "/" ++ name
  end.

End PyStr.

(** ** Data model *)

(** The lock-status record of a machine, as [get_status] returns it.  The
    status contract promises the keys the module reads; [locked_by] and
    [description] may hold Python's [None]. *)
Record Status := {
  is_vm : bool;
  vm_host_name : string;
  mac_address : string;
  locked_by : option string;
  description : option string;
}.

(** [file_info] and [file_out] of [build_config]: the document handed to
    [yaml.safe_dump]. *)
Record FileInfo := {
  disk_size : string;
  ram : string;
  cpus : Z;
  networks : list (string * string);   (* (source, mac) *)
  distro : string;
  distroversion : string;
  additional_disks : Z;
  additional_disks_size : string;
  arch : string;
}.

Record FileOut := {
  downburst : FileInfo;
  local_hostname : string;
}.

(** The result of one subprocess: [(proc.returncode, out, err)]. *)
Record ProcResult := {
  returncode : Z;
  out : string;
  err : string;
}.

Inductive Level := INFO | WARNING | ERROR.

(** Observable effects, in the order they happen. *)
Inductive Event :=
| EvLog (lvl : Level) (msg : string)
| EvTempfile (path : string)          (* tempfile.NamedTemporaryFile(delete=False) *)
| EvDump (path : string) (doc : FileOut)  (* yaml.safe_dump(doc, fd) *)
| EvRemove (path : string)            (* os.remove *)
| EvPopen (argv : list string)        (* subprocess.Popen(args).communicate() *)
| EvSleep (seconds : nat).

Inductive Exn :=
| TypeError (msg : string)
| ValueError (msg : string)
| IndexError (msg : string)
| AttributeError (msg : string)
| LoopFuel.                            (* the model's loop bound was too small *)

(** The file system holds the temporary descriptor files: [None] is a file
    created but not written yet.  [events] has the most recent event
    first; [history] reads it in chronological order. *)
Record World := {
  files : gmap string (option FileOut);
  tmp_next : nat;
  events : list Event;
}.

Definition history (w : World) : list Event := reverse (events w).

(** The running test context: [ctx.config] is absent ([None]) or a mapping,
    of which only the keys matter here. *)
Record Ctx := {
  ctx_config : option (list string);
  ctx_os_type : string;
  ctx_os_version : string;
}.

(** What the module reads from outside.  [run sub k] is the answer of the
    provisioning tool to the [k]-th invocation (from 0) of subcommand
    [sub]. *)
Record Env := {
  config_downburst : option string;          (* config.downburst *)
  environ_PATH : option string;              (* os.environ.get('PATH') *)
  access_X_OK : string -> bool;              (* os.access(pth, os.X_OK) *)
  pw_name : string;                          (* pwd.getpwuid(os.getuid()).pw_name *)
  expanduser : string -> string;             (* os.path.expanduser *)
  decanonicalize_hostname : string -> string;
  get_status : string -> option Status;
  get_distro : Ctx -> string;
  get_distro_version : Ctx -> string;
  run : string -> nat -> ProcResult;
}.

(** ** A state-and-exception monad for the effects *)

Inductive Outcome (A : Type) :=
| Ret (a : A)
| Raise (e : Exn).
Arguments Ret {A} a.
Arguments Raise {A} e.

Global Instance Outcome_fmap : FMap Outcome := fun A B f o =>
  match o with
  | Ret a => Ret (f a)
  | Raise e => Raise e
  end.

Definition M (A : Type) : Type := World -> Outcome A * World.

Global Instance M_ret : MRet M := fun A a w => (Ret a, w).
Global Instance M_bind : MBind M := fun A B f m w =>
  match m w with
  | (Ret a, w') => f a w'
  | (Raise e, w') => (Raise e, w')
  end.

Definition raise {A} (e : Exn) : M A := fun w => (Raise e, w).

(** The world after one more event. *)
Definition push (e : Event) (w : World) : World :=
  {| files := files w; tmp_next := tmp_next w; events := e :: events w |}.

Definition emit (e : Event) : M unit := fun w => (Ret tt, push e w).

Definition log (lvl : Level) (msg : string) : M unit := emit (EvLog lvl msg).

Definition sleep (seconds : nat) : M unit := emit (EvSleep seconds).

(** The subcommand of a downburst command line
    [<executable> -c <host> <subcommand> ...]. *)
Definition subcommand (argv : list string) : string := nth 3 argv "".

Definition is_call (sub : string) (e : Event) : bool :=
  match e with
  | EvPopen argv => bool_decide (subcommand argv = sub)
  | _ => false
  end.

(** How many invocations of subcommand [sub] a list of events holds. *)
Definition calls (sub : string) (evs : list Event) : nat :=
  List.length (List.filter (is_call sub) evs).

(** [subprocess.Popen(args, stdout=PIPE, stderr=PIPE)] with
    [proc.communicate()]: blocks until the tool answers.  The process is
    taken to start and to answer: the [OSError] of a path that cannot be
    executed is outside this model, so what is proved of a call that runs
    the tool is proved for the runs in which the tool answers. *)
Definition Popen (env : Env) (argv : list string) : M ProcResult := fun w =>
  let r := run env (subcommand argv) (calls (subcommand argv) (events w)) in
  (Ret r, push (EvPopen argv) w).

(** The name of the [n]-th temporary file. *)
Definition tmpname (n : nat) : string := "/tmp/tmp" ++ pretty n.

(** [tempfile.NamedTemporaryFile(delete=False)]: a new, empty file. *)
Definition NamedTemporaryFile : M string := fun w =>
  let p := tmpname (tmp_next w) in
  (Ret p, push (EvTempfile p)
            {| files := <[p := None]> (files w); tmp_next := S (tmp_next w);
               events := events w |}).

(** [yaml.safe_dump(doc, fd)]: the document is written to the file. *)
Definition safe_dump (doc : FileOut) (path : string) : M unit := fun w =>
  (Ret tt, push (EvDump path doc)
             {| files := <[path := Some doc]> (files w); tmp_next := tmp_next w;
                events := events w |}).

(** A path argument that is [None]: [os.stat] and [os.remove] refuse it
    with a [TypeError], which [os.path.exists] does not catch. *)
Definition path_is_None : Exn :=
  TypeError "coercing to Unicode: need string or buffer, NoneType found".

(** [os.path.exists(path)]. *)
Definition path_exists (path : option string) : M bool := fun w =>
  match path with
  | None => (Raise path_is_None, w)
  | Some p => (Ret (bool_decide (is_Some (files w !! p))), w)
  end.

(** [os.remove(path)], called on files that exist. *)
Definition os_remove (path : option string) : M unit := fun w =>
  match path with
  | None => (Raise path_is_None, w)
  | Some p =>
      (Ret tt, push (EvRemove p)
                 {| files := delete p (files w); tmp_next := tmp_next w;
                    events := events w |})
  end.

(** ** class Downburst *)

Record Downburst := {
  name : string;
  os_type : string;
  os_version : string;
  status : Status;
  config_path : option string;
  host : string;
}.

Definition set_config_path (self : Downburst) (p : option string) : Downburst :=
  {| name := name self; os_type := os_type self; os_version := os_version self;
     status := status self; config_path := p; host := host self |}.

(** [Downburst.__init__(self, name, os_type, os_version, status=None)].
    [status or get_status(self.name)]; subscripting a status that is [None]
    is a [TypeError]. *)
Definition __init__ (env : Env) (name' os_type' os_version' : string)
    (status' : option Status) : M Downburst :=
  match (match status' with Some s => Some s | None => get_status env name' end) with
  | None => raise (TypeError "'NoneType' object has no attribute '__getitem__'")
  | Some s =>
      mret {| name := name'; os_type := os_type'; os_version := os_version';
              status := s; config_path := None;
              host := decanonicalize_hostname env (vm_host_name s) |}
  end.

(** Values passed by keyword to the constructor. *)
Inductive Arg :=
| AStr (s : string)
| AStatus (s : option Status).

Definition init_params : list string := ["name"; "os_type"; "os_version"; "status"].

(** The first keyword of a call that names no parameter. *)
Definition unexpected_keyword (params : list string) (kwargs : list (string * Arg))
    : option string :=
  List.find (fun k => negb (bool_decide (k ∈ params))) (map fst kwargs).

Definition kwarg (k : string) (kwargs : list (string * Arg)) : option Arg :=
  snd <$> List.find (fun kv => bool_decide (fst kv = k)) kwargs.

(** A call [Downburst(k1=v1, ...)] with keyword arguments only: Python
    binds the keywords to the parameters of [__init__] before the body
    runs. *)
Definition Downburst_call (env : Env) (kwargs : list (string * Arg)) : M Downburst :=
  match unexpected_keyword init_params kwargs with
  | Some k =>
      raise (TypeError ("__init__() got an unexpected keyword argument '" ++ k ++ "'"))
  | None =>
      match kwarg "name" kwargs, kwarg "os_type" kwargs, kwarg "os_version" kwargs with
      | Some (AStr n), Some (AStr t), Some (AStr v) =>
          match kwarg "status" kwargs with
          | Some (AStatus s) => __init__ env n t v s
          | Some (AStr _) => raise (TypeError "string indices must be integers, not str")
          | None => __init__ env n t v None
          end
      | _, _, _ => raise (TypeError "__init__() takes at least 4 arguments")
      end
  end.

(** The [executable] property: [config.downburst], then the directories of
    [PATH], then the three per-user installations; [''] when none is
    found. *)
Definition user_install (env : Env) (user : string) : string :=
  expanduser env ("~" ++ user ++ "/src/downburst/virtualenv/bin/downburst").

Definition executable (env : Env) : string :=
  match config_downburst env with
  | Some (String c s) => String c s
  | _ =>
      let in_path :=
        match environ_PATH env with
        | Some (String c s) =>
            List.find (access_X_OK env)
              (map (fun p => PyStr.path_join p "downburst")
                   (PyStr.split ":" (String c s)))
        | _ => None
        end in
      match in_path with
      | Some pth => pth
      | None =>
          match List.find (access_X_OK env)
                  (map (user_install env) [pw_name env; "ubuntu"; "teuthology"]) with
          | Some pth => pth
          | None => ""
          end
      end
  end.

(** [build_config]: a new temporary file, the descriptor written to it,
    its name kept in [self.config_path]. *)
Definition file_info (self : Downburst) : FileInfo :=
  {| disk_size := "100G";
     ram := "1.9G";
     cpus := 1;
     networks := [("front", mac_address (status self))];
     distro := PyStr.lower (os_type self);
     distroversion := os_version self;
     additional_disks := 3;
     additional_disks_size := "200G";
     arch := "x86_64" |}.

Definition build_config (self : Downburst) : M (bool * Downburst) :=
  config_fd ← NamedTemporaryFile;
  match PyStr.split "@" (name self) !! 1%nat with
  | None => raise (IndexError "list index out of range")
  | Some fqdn =>
      safe_dump {| downburst := file_info self; local_hostname := fqdn |} config_fd;;
      mret (true, set_config_path self (Some config_fd))
  end.

(** [_run_create] returns either [False] or the triple of the process. *)
Inductive RunCreate :=
| RunFalse
| RunTuple (r : ProcResult).

Definition create_args (env : Env) (self : Downburst) (exe path : string) : list string :=
  [exe; "-c"; host self; "create"; "--meta-data=" ++ path;
   decanonicalize_hostname env (name self)].

Definition _run_create (env : Env) (self : Downburst) : M RunCreate :=
  match config_path self with
  | Some (String c p) =>
      let exe := executable env in
      if negb (PyStr.truthy exe) then
        log ERROR "No downburst executable found.";;
        mret RunFalse
      else
        log INFO ("Provisioning a " ++ os_type self ++ " " ++ os_version self ++ " vps");;
        r ← Popen env (create_args env self exe (String c p));
        mret (RunTuple r)
  | _ => raise (ValueError "I need a config_path!")
  end.

Definition destroy_args (env : Env) (self : Downburst) (exe : string) : list string :=
  [exe; "-c"; host self; "destroy"; decanonicalize_hostname env (name self)].

Definition destroy (env : Env) (self : Downburst) : M bool :=
  let exe := executable env in
  if negb (PyStr.truthy exe) then
    log ERROR "No downburst executable found.";;
    mret false
  else
    r ← Popen env (destroy_args env self exe);
    if PyStr.truthy (err r) then
      log ERROR ("Error destroying " ++ name self ++ ": " ++ err r);;
      mret false
    else if (returncode r =? 0)%Z then
      log INFO (name self ++ " destroyed: " ++ out r);;
      mret true
    else
      log ERROR ("I don't know if the destroy of " ++ name self ++ " succeded!");;
      mret false.

Definition remove_config (self : Downburst) : M (bool * Downburst) :=
  present ← path_exists (config_path self);
  if present : bool then
    os_remove (config_path self);;
    mret (true, set_config_path self None)
  else mret (false, self).

(** [__del__]: the finalizer runs [remove_config] and drops its answer. *)
Definition __del__ (self : Downburst) : M (unit * Downburst) :=
  '(_, self') ← remove_config self;
  mret (tt, self').

(** Modelled from the spec: [safe_while] of [teuthology/contextutil.py] is
    not among the sources.  Section 4.4: a bounded retry with a fixed
    interval ([sleep]) between attempts and at most [tries] attempts; when
    the budget is exhausted the loop ends and the flag recorded last is
    the result.  [proceed] counts the calls, sleeps before every attempt
    but the first, and answers false once the budget is spent. *)
Record SafeWhile := {
  sw_sleep : nat;
  sw_tries : nat;
  sw_counter : nat;
}.

Definition safe_while (sleep' tries' : nat) : SafeWhile :=
  {| sw_sleep := sleep'; sw_tries := tries'; sw_counter := 0 |}.

Definition proceed (sw : SafeWhile) : M (bool * SafeWhile) :=
  let n := S (sw_counter sw) in
  let sw' := {| sw_sleep := sw_sleep sw; sw_tries := sw_tries sw; sw_counter := n |} in
  if (sw_tries sw <? n)%nat then mret (false, sw')
  else
    (if (1 <? n)%nat then sleep (sw_sleep sw) else mret tt);;
    mret (true, sw').

(** The loop [while proceed(): ...] of [create], with the local [success].
    [fuel] bounds the number of [proceed()] calls; [create] gives one more
    than the retry budget, which is never used up
    (see [create_loop_fuel]). *)
Fixpoint create_loop (env : Env) (self : Downburst) (fuel : nat)
    (sw : SafeWhile) (success : option bool) : M (option bool) :=
  match fuel with
  | O => raise LoopFuel
  | S fuel' =>
      '(go, sw') ← proceed sw;
      if go : bool then
        rc ← _run_create env self;
        match rc with
        | RunFalse => raise (TypeError "'bool' object is not iterable")
        | RunTuple r =>
            if (returncode r =? 0)%Z then
              log INFO ("Downburst created " ++ name self ++ ": "
                        ++ PyStr.strip (out r));;
              mret (Some true)
            else if PyStr.truthy (err r) then
              if PyStr.contains "exists" (err r) then
                log INFO ("Guest files exist. Re-creating guest: " ++ name self);;
                destroy env self;;
                create_loop env self fuel' sw' (Some false)
              else
                log INFO ("Downburst failed on " ++ name self ++ ": "
                          ++ PyStr.strip (err r));;
                mret (Some false)
            else create_loop env self fuel' sw' success
        end
      else mret success
  end.

(** [create]: [None], [True] or [False], with the controller as
    [build_config] left it. *)
Definition create (env : Env) (self : Downburst) : M (option bool * Downburst) :=
  '(_, self') ← build_config self;
  let sw := safe_while 60 3 in
  success ← create_loop env self' (S (sw_tries sw)) sw None;
  mret (success, self').

(** ** Module-level entry points *)

Definition py_str (v : option string) : string :=
  match v with
  | Some s => s
  | None => "None"
  end.

Definition has_custom_config (ctx : Ctx) : bool :=
  match ctx_config ctx with
  | Some keys => bool_decide ("downburst" ∈ keys)
  | None => false
  end.

Definition create_if_vm (env : Env) (ctx : Ctx) (machine_name : string)
    : M (option bool) :=
  match get_status env machine_name with
  | None => raise (AttributeError "'NoneType' object has no attribute 'get'")
  | Some status_info =>
      if negb (is_vm status_info) then mret (Some false)
      else
        let os_type' := get_distro env ctx in
        let os_version' := get_distro_version env ctx in
        (if has_custom_config ctx
         then log WARNING "Usage of a custom downburst config has been deprecated."
         else mret tt);;
        dbrst ← Downburst_call env
                  [("machine_name", AStr machine_name); ("os_type", AStr os_type');
                   ("os_version", AStr os_version'); ("status", AStatus (Some status_info))];
        '(success, _) ← create env dbrst;
        mret success
  end.

Definition destroy_if_vm (env : Env) (ctx : Ctx) (machine_name : string)
    (user description' : option string) : M bool :=
  let os_type' := get_distro env ctx in
  let os_version' := get_distro_version env ctx in
  match get_status env machine_name with
  | None => mret true
  | Some status_info =>
      if negb (is_vm status_info) then mret true
      else if bool_decide (is_Some user ∧ user ≠ locked_by status_info) then
        log ERROR ("Tried to destroy " ++ machine_name ++ " as " ++ py_str user
                   ++ " but it is locked by " ++ py_str (locked_by status_info));;
        mret false
      else if bool_decide (is_Some description'
                           ∧ description' ≠ description status_info) then
        log ERROR ("Tried to destroy " ++ machine_name ++ " with description "
                   ++ py_str description' ++ " but it is locked with description "
                   ++ py_str (description status_info));;
        mret false
      else
        dbrst ← Downburst_call env
                  [("machine_name", AStr machine_name); ("os_type", AStr os_type');
                   ("os_version", AStr os_version'); ("status", AStatus (Some status_info))];
        destroy env dbrst
  end.

(** ** Reading a run *)

(** The command lines of all subprocess invocations among [evs]. *)
Definition popens (evs : list Event) : list (list string) :=
  omap (fun e => match e with EvPopen argv => Some argv | _ => None end) evs.

Definition is_tempfile (e : Event) : bool :=
  match e with
  | EvTempfile _ => true
  | _ => false
  end.

(** How many temporary files [evs] creates. *)
Definition tempfiles (evs : list Event) : nat :=
  List.length (List.filter is_tempfile evs).

(** The value of a method, without the controller it hands back. *)
Definition value {A} (r : Outcome (A * Downburst) * World) : Outcome A :=
  fst <$> fst r.

(** The descriptor stored at [path], if one was written there. *)
Definition descriptor (w : World) (path : string) : option FileOut :=
  match files w !! path with
  | Some (Some doc) => Some doc
  | _ => None
  end.

(** [file_out] of [build_config], for an identity with second component
    [fqdn]. *)
Definition file_out (self : Downburst) (fqdn : string) : FileOut :=
  {| downburst := file_info self; local_hostname := fqdn |}.

(** The world [build_config] leaves when the identity has a second
    component [fqdn]. *)
Definition built (self : Downburst) (fqdn : string) (w : World) : World :=
  let p := tmpname (tmp_next w) in
  push (EvDump p (file_out self fqdn))
    {| files := <[p := Some (file_out self fqdn)]> (<[p := None]> (files w));
       tmp_next := S (tmp_next w);
       events := EvTempfile p :: events w |}.

Definition provisioning (self : Downburst) : Event :=
  EvLog INFO ("Provisioning a " ++ os_type self ++ " " ++ os_version self ++ " vps").

(** What [destroy] answers and logs for a result [r] of the tool. *)
Definition destroy_verdict (r : ProcResult) : bool :=
  if PyStr.truthy (err r) then false else (returncode r =? 0)%Z.

Definition destroy_report (self : Downburst) (r : ProcResult) : Event :=
  if PyStr.truthy (err r) then
    EvLog ERROR ("Error destroying " ++ name self ++ ": " ++ err r)
  else if (returncode r =? 0)%Z then
    EvLog INFO (name self ++ " destroyed: " ++ out r)
  else EvLog ERROR ("I don't know if the destroy of " ++ name self ++ " succeded!").

(** The retry state after one more [proceed()], and the world after the
    sleep that call takes. *)
Definition next (sw : SafeWhile) : SafeWhile :=
  {| sw_sleep := sw_sleep sw; sw_tries := sw_tries sw; sw_counter := S (sw_counter sw) |}.

Definition slept (sw : SafeWhile) (w : World) : World :=
  if (1 <? S (sw_counter sw))%nat then push (EvSleep (sw_sleep sw)) w else w.

(** The world once the tool has answered an attempt with the descriptor
    at [path]. *)
Definition attempted (env : Env) (self : Downburst) (path : string)
    (sw : SafeWhile) (w : World) : World :=
  push (EvPopen (create_args env self (executable env) path))
    (push (provisioning self) (slept sw w)).

(** The world once a conflicting guest has been destroyed. *)
Definition recovered (env : Env) (self : Downburst) (path : string)
    (sw : SafeWhile) (w : World) : World :=
  push (destroy_report self (run env "destroy" (calls "destroy" (events w))))
    (push (EvPopen (destroy_args env self (executable env)))
       (push (EvLog INFO ("Guest files exist. Re-creating guest: " ++ name self))
          (attempted env self path sw w))).

(** The value of the retry loop as a function of the tool's answers to
    the create invocations number [k], [k+1], ... and of the attempts
    left. *)
Fixpoint verdict (answers : nat -> ProcResult) (k budget : nat)
    (success : option bool) : option bool :=
  match budget with
  | O => success
  | S budget' =>
      let r := answers k in
      if (returncode r =? 0)%Z then Some true
      else if PyStr.truthy (err r) then
        if PyStr.contains "exists" (err r)
        then verdict answers (S k) budget' (Some false)
        else Some false
      else verdict answers (S k) budget' success
  end.


(** Events the retry loop may add when the descriptor is at [path]: no
    temporary file, and create invocations that pass [path]. *)
Definition loop_event_ok (path : string) (e : Event) : Prop :=
  match e with
  | EvTempfile _ | EvDump _ _ => False
  | EvPopen argv =>
      subcommand argv = "create" -> nth 4 argv "" = "--meta-data=" ++ path
  | _ => True
  end.

(** [w'] is [w] with more events, all satisfying [P], and the same files. *)
Definition grows (P : Event -> Prop) (w w' : World) : Prop :=
  files w' = files w
  /\ exists evs, events w' = (evs ++ events w)%list /\ Forall P evs.

(** The text of [s] before its first [sep], all of [s] when it has none. *)
Fixpoint up_to (sep : ascii) (s : string) : string :=
  match s with
  | EmptyString => EmptyString
  | String c rest => if Ascii.eqb c sep then EmptyString else String c (up_to sep rest)
  end.

(** The text of [s] after its first [sep], the way section 4.2 of the
    specification words the local hostname. *)
Fixpoint after_first (sep : ascii) (s : string) : option string :=
  match s with
  | EmptyString => None
  | String c rest => if Ascii.eqb c sep then Some rest else after_first sep rest
  end.


(** The exception of a constructor call that passes [machine_name=]. *)
Definition unexpected_machine_name : Exn :=
  TypeError "__init__() got an unexpected keyword argument 'machine_name'".

(** ** Reading the rest of the module *)

(** The places [executable] looks at when [config.downburst] is not set,
    in the order it tries them. *)
Definition path_candidates (env : Env) : list string :=
  match environ_PATH env with
  | Some (String c s) =>
      map (fun p => PyStr.path_join p "downburst") (PyStr.split ":" (String c s))
  | _ => []
  end.

Definition home_candidates (env : Env) : list string :=
  map (user_install env) [pw_name env; "ubuntu"; "teuthology"].

Definition candidates (env : Env) : list string :=
  (path_candidates env ++ home_candidates env)%list.

(** [config.downburst] is unset or empty. *)
Definition unconfigured (env : Env) : bool :=
  match config_downburst env with
  | Some (String _ _) => false
  | _ => true
  end.

(** An answer to a create invocation with exit code 0, and one after
    which the loop goes on to the next attempt. *)
Definition exited_ok (r : ProcResult) : bool := (returncode r =? 0)%Z.

Definition retried (r : ProcResult) : bool :=
  negb (returncode r =? 0)%Z
  && (negb (PyStr.truthy (err r)) || PyStr.contains "exists" (err r)).

(** What [create] may do once the descriptor is at [path]: log, sleep,
    and run the resolved executable with the create or the destroy
    command line of this controller. *)
Definition command_ok (env : Env) (self : Downburst) (path : string) (e : Event) : Prop :=
  match e with
  | EvLog _ _ | EvSleep _ => True
  | EvPopen argv =>
      argv = create_args env self (executable env) path
      \/ argv = destroy_args env self (executable env)
  | EvTempfile _ | EvDump _ _ | EvRemove _ => False
  end.

(** Upper-case ASCII letters. *)
Definition is_upper (ch : ascii) : bool :=
  let n := nat_of_ascii ch in (65 <=? n)%nat && (n <=? 90)%nat.

Fixpoint has_upper (s : string) : bool :=
  match s with
  | EmptyString => false
  | String ch rest => is_upper ch || has_upper rest
  end.

(** ** Sample inputs *)

Module Sample.

Definition vm_status : Status :=
  {| is_vm := true; vm_host_name := "mira001.front.sepia.ceph.com";
     mac_address := "52:54:00:aa:bb:cc";
     locked_by := Some "alice"; description := Some "nightly" |}.

(** A physical machine, locked by alice. *)
Definition physical_status : Status :=
  {| is_vm := false; vm_host_name := ""; mac_address := "00:25:90:aa:bb:cc";
     locked_by := Some "alice"; description := Some "nightly" |}.

Definition ctx : Ctx :=
  {| ctx_config := None; ctx_os_type := "Ubuntu"; ctx_os_version := "12.04" |}.

Definition reply (code : Z) (o e : string) : ProcResult :=
  {| returncode := code; out := o; err := e |}.

(** An environment with [config.downburst = exe] and nothing on [PATH],
    where the lock server answers [st] for every machine and the tool
    answers by [answers]. *)
Definition env_with (exe : option string) (st : option Status)
    (answers : string -> nat -> ProcResult) : Env :=
  {| config_downburst := exe;
     environ_PATH := None;
     access_X_OK := fun _ => false;
     pw_name := "tester";
     expanduser := fun p => p;
     decanonicalize_hostname := fun h => hd "" (PyStr.split "." h);
     get_status := fun _ => st;
     get_distro := ctx_os_type;
     get_distro_version := ctx_os_version;
     run := answers |}.

Definition exe : option string := Some "/usr/bin/downburst".

Definition answers_ok : string -> nat -> ProcResult :=
  fun _ _ => reply 0 "created" "".

(** The first create finds a stale guest, the second succeeds. *)
Definition answers_conflict_once : string -> nat -> ProcResult :=
  fun sub k =>
    if bool_decide (sub = "create") then
      match k with
      | O => reply 1 "" "libvirt: domain vpm001 already exists"
      | S _ => reply 0 "created" ""
      end
    else reply 0 "destroyed" "".

(** Every invocation fails without a word on standard error. *)
Definition answers_silent : string -> nat -> ProcResult :=
  fun _ _ => reply 1 "" "".

Definition answers_fatal : string -> nat -> ProcResult :=
  fun _ _ => reply 1 "" "no route to host".

Definition env_ok : Env := env_with exe (Some vm_status) answers_ok.
Definition env_conflict_once : Env := env_with exe (Some vm_status) answers_conflict_once.
Definition env_silent : Env := env_with exe (Some vm_status) answers_silent.
Definition env_fatal : Env := env_with exe (Some vm_status) answers_fatal.
Definition env_no_executable : Env := env_with None (Some vm_status) answers_ok.
Definition env_physical : Env := env_with exe (Some physical_status) answers_ok.

(** No configured path; [downburst] sits in the second directory of
    [PATH]. *)
Definition env_on_path : Env :=
  {| config_downburst := None;
     environ_PATH := Some "/usr/local/bin:/usr/bin/:/bin";
     access_X_OK := fun p => bool_decide (p = "/usr/bin/downburst");
     pw_name := "tester";
     expanduser := fun p => p;
     decanonicalize_hostname := fun h => hd "" (PyStr.split "." h);
     get_status := fun _ => Some vm_status;
     get_distro := ctx_os_type;
     get_distro_version := ctx_os_version;
     run := answers_ok |}.

Definition world0 : World := {| files := ∅; tmp_next := 0; events := [] |}.

Definition vm : Downburst :=
  {| name := "ubuntu@vpm001.front.sepia.ceph.com"; os_type := "Ubuntu";
     os_version := "12.04"; status := vm_status; config_path := None;
     host := "mira001" |}.

(** An identity with two separators. *)
Definition vm_two_ats : Downburst :=
  {| name := "ubuntu@vpm001@backup"; os_type := "Ubuntu"; os_version := "12.04";
     status := vm_status; config_path := None; host := "mira001" |}.

(** The controller and the world once [build_config] has run. *)
Definition vm_built : Downburst := set_config_path vm (Some "/tmp/tmp0").
Definition world_built : World := built vm "vpm001.front.sepia.ceph.com" world0.

(** Nothing configured, nothing on [PATH]; the installation of the
    ubuntu account is the only executable one. *)
Definition env_fallback : Env :=
  {| config_downburst := None;
     environ_PATH := Some "/usr/bin";
     access_X_OK :=
       fun p => bool_decide (p = "/home/ubuntu/src/downburst/virtualenv/bin/downburst");
     pw_name := "tester";
     expanduser := fun p => match p with
                            | String "~" rest => "/home/" ++ rest
                            | _ => p
                            end;
     decanonicalize_hostname := fun h => hd "" (PyStr.split "." h);
     get_status := fun _ => Some vm_status;
     get_distro := ctx_os_type;
     get_distro_version := ctx_os_version;
     run := answers_ok |}.

(** Every create meets a stale guest; destroy reports success. *)
Definition answers_conflict_always : string -> nat -> ProcResult :=
  fun sub _ =>
    if bool_decide (sub = "create")
    then reply 1 "" "libvirt: domain vpm001 already exists"
    else reply 0 "destroyed" "".

(** As [answers_conflict_once], but destroy fails. *)
Definition answers_conflict_destroy_fails : string -> nat -> ProcResult :=
  fun sub k =>
    if bool_decide (sub = "create") then answers_conflict_once sub k
    else reply 1 "" "permission denied".

Definition env_conflict_always : Env :=
  env_with exe (Some vm_status) answers_conflict_always.
Definition env_conflict_destroy_fails : Env :=
  env_with exe (Some vm_status) answers_conflict_destroy_fails.

(** An identity without separator. *)
Definition vm_no_at : Downburst :=
  {| name := "vpm001"; os_type := "Ubuntu"; os_version := "12.04";
     status := vm_status; config_path := None; host := "mira001" |}.

End Sample.

(** ** The model at work *)

Example split_examples :
  PyStr.split "@" "a@b@c" = ["a"; "b"; "c"]
  /\ PyStr.split "@" "abc" = ["abc"]
  /\ PyStr.split "@" "" = [""]
  /\ PyStr.split ":" "/bin::/usr/bin" = ["/bin"; ""; "/usr/bin"].
Proof. repeat split. Qed.

Example string_examples :
  PyStr.strip "  a b  " = "a b"
  /\ PyStr.lower "UbunTu-12" = "ubuntu-12"
  /\ PyStr.contains "exists" "domain exists already" = true
  /\ PyStr.contains "exists" "exist" = false
  /\ PyStr.contains "exists" "" = false
  /\ PyStr.path_join "/usr/bin/" "downburst" = "/usr/bin/downburst"
  /\ PyStr.path_join "/bin" "downburst" = "/bin/downburst".
Proof. repeat split. Qed.

Example executable_examples :
  executable Sample.env_ok = "/usr/bin/downburst"
  /\ executable Sample.env_on_path = "/usr/bin/downburst"
  /\ executable Sample.env_no_executable = "".
Proof. repeat split. Qed.

(** One successful attempt: one temporary file, one invocation, no
    destroy, no sleep. *)
Example create_first_attempt_ok :
  value (create Sample.env_ok Sample.vm Sample.world0) = Ret (Some true)
  /\ history (snd (create Sample.env_ok Sample.vm Sample.world0))
     = [EvTempfile "/tmp/tmp0";
        EvDump "/tmp/tmp0" (file_out Sample.vm "vpm001.front.sepia.ceph.com");
        EvLog INFO "Provisioning a Ubuntu 12.04 vps";
        EvPopen ["/usr/bin/downburst"; "-c"; "mira001"; "create";
                 "--meta-data=/tmp/tmp0"; "ubuntu@vpm001"];
        EvLog INFO "Downburst created ubuntu@vpm001.front.sepia.ceph.com: created"].
Proof. vm_compute. split; reflexivity. Qed.

(** The descriptor of the sample machine. *)
Example descriptor_example :
  descriptor (snd (build_config Sample.vm Sample.world0)) "/tmp/tmp0"
  = Some {| downburst :=
              {| disk_size := "100G"; ram := "1.9G"; cpus := 1;
                 networks := [("front", "52:54:00:aa:bb:cc")];
                 distro := "ubuntu"; distroversion := "12.04";
                 additional_disks := 3; additional_disks_size := "200G";
                 arch := "x86_64" |};
            local_hostname := "vpm001.front.sepia.ceph.com" |}.
Proof. vm_compute. reflexivity. Qed.

(** ** The monad and the primitives *)

Lemma bind_ret {A B} (m : M A) (f : A -> M B) w a w' :
  m w = (Ret a, w') -> (m ≫= f) w = f a w'.
Proof. intros H. unfold mbind, M_bind. rewrite H. reflexivity. Qed.

Lemma bind_raise {A B} (m : M A) (f : A -> M B) w e w' :
  m w = (Raise e, w') -> (m ≫= f) w = (Raise e, w').
Proof. intros H. unfold mbind, M_bind. rewrite H. reflexivity. Qed.

Lemma contains_truthy needle hay :
  PyStr.truthy needle = true -> PyStr.contains needle hay = true ->
  PyStr.truthy hay = true.
Proof.
  destruct needle; [discriminate|]. intros _.
  destruct hay; [cbn; discriminate | reflexivity].
Qed.

Lemma truthy_nonempty s : PyStr.truthy s = true <-> s <> "".
Proof. destruct s; cbn; split; congruence. Qed.

Lemma calls_cons sub e evs :
  calls sub (e :: evs) = ((if is_call sub e then 1 else 0) + calls sub evs)%nat.
Proof. unfold calls. cbn. destruct (is_call sub e); reflexivity. Qed.

(** ** Splitting an identity *)

Lemma split_head sep s : exists rest, PyStr.split sep s = up_to sep s :: rest.
Proof.
  induction s as [|ch s [rest IH]]; cbn [PyStr.split up_to]; [eauto|].
  destruct (Ascii.eqb ch sep); [eauto|]. rewrite IH. eauto.
Qed.

Lemma split_no_sep sep s : PyStr.has_char sep s = false -> PyStr.split sep s = [s].
Proof.
  induction s as [|ch s IH]; cbn [PyStr.split PyStr.has_char]; [reflexivity|].
  destruct (Ascii.eqb ch sep); cbn [orb]; [discriminate|].
  intros H. rewrite (IH H). reflexivity.
Qed.

Lemma up_to_no_sep sep s : PyStr.has_char sep s = false -> up_to sep s = s.
Proof.
  induction s as [|ch s IH]; cbn [up_to PyStr.has_char]; [reflexivity|].
  destruct (Ascii.eqb ch sep); cbn [orb]; [discriminate|].
  intros H. rewrite (IH H). reflexivity.
Qed.

Lemma split_app sep h l :
  PyStr.has_char sep h = false ->
  PyStr.split sep (h ++ String sep l) = h :: PyStr.split sep l.
Proof.
  induction h as [|ch h IH].
  - intros _. change ("" ++ String sep l) with (String sep l).
    cbn [PyStr.split]. rewrite Ascii.eqb_refl. reflexivity.
  - change (String ch h ++ String sep l) with (String ch (h ++ String sep l)).
    cbn [PyStr.split PyStr.has_char].
    destruct (Ascii.eqb ch sep); cbn [orb]; [discriminate|].
    intros H. rewrite (IH H). reflexivity.
Qed.

Lemma split_second h l :
  PyStr.has_char "@" h = false ->
  PyStr.split "@" (h ++ "@" ++ l) !! 1%nat = Some (up_to "@" l).
Proof.
  intros H. change (h ++ "@" ++ l) with (h ++ String "@" l).
  rewrite (split_app _ _ _ H). destruct (split_head "@" l) as [rest ->]. reflexivity.
Qed.

(** ** The methods, one call at a time *)

Lemma build_config_ok self w fqdn :
  PyStr.split "@" (name self) !! 1%nat = Some fqdn ->
  build_config self w
  = (Ret (true, set_config_path self (Some (tmpname (tmp_next w)))), built self fqdn w).
Proof.
  intros H. unfold build_config.
  erewrite bind_ret by reflexivity. rewrite H. reflexivity.
Qed.

Lemma build_config_bad self w :
  PyStr.split "@" (name self) !! 1%nat = None ->
  build_config self w
  = (Raise (IndexError "list index out of range"), snd (NamedTemporaryFile w)).
Proof.
  intros H. unfold build_config.
  erewrite bind_ret by reflexivity. rewrite H. reflexivity.
Qed.

Lemma config_path_built self n :
  config_path (set_config_path self (Some (tmpname n)))
  = Some (String "/" ("tmp/tmp" ++ pretty n)).
Proof. reflexivity. Qed.

Lemma descriptor_built self fqdn w :
  descriptor (built self fqdn w) (tmpname (tmp_next w))
  = Some {| downburst := file_info self; local_hostname := fqdn |}.
Proof.
  unfold descriptor, built. cbn [files push]. rewrite lookup_insert_eq. reflexivity.
Qed.

Lemma run_create_ok env self w c p :
  config_path self = Some (String c p) ->
  PyStr.truthy (executable env) = true ->
  _run_create env self w
  = (Ret (RunTuple (run env "create" (calls "create" (events w)))),
     push (EvPopen (create_args env self (executable env) (String c p)))
       (push (provisioning self) w)).
Proof.
  intros Hc He. unfold _run_create. rewrite Hc, He. reflexivity.
Qed.

Lemma run_create_no_executable env self w c p :
  config_path self = Some (String c p) ->
  PyStr.truthy (executable env) = false ->
  _run_create env self w
  = (Ret RunFalse, push (EvLog ERROR "No downburst executable found.") w).
Proof.
  intros Hc He. unfold _run_create. rewrite Hc, He. reflexivity.
Qed.

Lemma destroy_ok env self w :
  PyStr.truthy (executable env) = true ->
  let r := run env "destroy" (calls "destroy" (events w)) in
  destroy env self w
  = (Ret (destroy_verdict r),
     push (destroy_report self r)
       (push (EvPopen (destroy_args env self (executable env))) w)).
Proof.
  intros He r. unfold destroy. rewrite He. cbn [negb].
  erewrite bind_ret by reflexivity.
  change (run env (subcommand (destroy_args env self (executable env)))
            (calls (subcommand (destroy_args env self (executable env))) (events w)))
    with r.
  unfold destroy_verdict, destroy_report.
  destruct (PyStr.truthy (err r)); [reflexivity|].
  destruct (returncode r =? 0)%Z; reflexivity.
Qed.

Lemma report_not_call sub self r : is_call sub (destroy_report self r) = false.
Proof.
  unfold destroy_report.
  destruct (PyStr.truthy (err r)); [reflexivity|].
  destruct (returncode r =? 0)%Z; reflexivity.
Qed.

Lemma proceed_go sw w :
  (sw_counter sw < sw_tries sw)%nat ->
  proceed sw w = (Ret (true, next sw), slept sw w).
Proof.
  intros H. unfold proceed, slept.
  destruct (Nat.ltb_spec (sw_tries sw) (S (sw_counter sw))); [lia|].
  destruct (1 <? S (sw_counter sw))%nat; reflexivity.
Qed.

Lemma proceed_stop sw w :
  (sw_tries sw <= sw_counter sw)%nat ->
  proceed sw w = (Ret (false, next sw), w).
Proof.
  intros H. unfold proceed.
  destruct (Nat.ltb_spec (sw_tries sw) (S (sw_counter sw))); [reflexivity|lia].
Qed.

Lemma calls_slept sub sw w : calls sub (events (slept sw w)) = calls sub (events w).
Proof. unfold slept. destruct (1 <? _)%nat; reflexivity. Qed.

Lemma calls_built sub self fqdn w :
  calls sub (events (built self fqdn w)) = calls sub (events w).
Proof. reflexivity. Qed.

Lemma calls_create_attempted env self path sw w :
  calls "create" (events (attempted env self path sw w)) = S (calls "create" (events w)).
Proof.
  unfold attempted. cbn [events push]. rewrite !calls_cons, calls_slept. reflexivity.
Qed.

Lemma calls_destroy_attempted env self path sw w :
  calls "destroy" (events (attempted env self path sw w)) = calls "destroy" (events w).
Proof.
  unfold attempted. cbn [events push]. rewrite !calls_cons, calls_slept. reflexivity.
Qed.

Lemma calls_create_recovered env self path sw w :
  calls "create" (events (recovered env self path sw w)) = S (calls "create" (events w)).
Proof.
  unfold recovered. cbn [events push]. rewrite !calls_cons, report_not_call.
  rewrite calls_create_attempted. reflexivity.
Qed.

Lemma calls_destroy_recovered env self path sw w :
  calls "destroy" (events (recovered env self path sw w)) = S (calls "destroy" (events w)).
Proof.
  unfold recovered. cbn [events push]. rewrite !calls_cons, report_not_call.
  rewrite calls_destroy_attempted. reflexivity.
Qed.

(** ** Growth of the world *)

Lemma grows_refl P w : grows P w w.
Proof. split; [reflexivity|]. exists []. split; [reflexivity | constructor]. Qed.

Lemma grows_push P e w w' : P e -> grows P w w' -> grows P w (push e w').
Proof.
  intros He [Hf (evs & Hev & Hall)]. split; [exact Hf|].
  exists (e :: evs). cbn [events push]. rewrite Hev. split; [reflexivity|].
  constructor; assumption.
Qed.

Lemma grows_trans P w1 w2 w3 : grows P w1 w2 -> grows P w2 w3 -> grows P w1 w3.
Proof.
  intros [Hf1 (e1 & He1 & Ha1)] [Hf2 (e2 & He2 & Ha2)]. split; [congruence|].
  exists (e2 ++ e1)%list. rewrite He2, He1, app_assoc. split; [reflexivity|].
  apply Forall_app; split; assumption.
Qed.

Lemma grows_slept P sw w : P (EvSleep (sw_sleep sw)) -> grows P w (slept sw w).
Proof.
  intros H. unfold slept. destruct (1 <? _)%nat; [|apply grows_refl].
  apply grows_push; [exact H | apply grows_refl].
Qed.

(** ** The retry loop, one attempt at a time *)

Section Loop.

Variables (env : Env) (self : Downburst) (c : ascii) (p : string).
Hypothesis Hcfg : config_path self = Some (String c p).

Lemma create_loop_stop fuel sw success w :
  (sw_tries sw <= sw_counter sw)%nat ->
  create_loop env self (S fuel) sw success w = (Ret success, w).
Proof.
  intros H. cbn [create_loop]. erewrite bind_ret by (apply proceed_stop, H).
  reflexivity.
Qed.

Lemma create_loop_no_executable fuel sw success w :
  PyStr.truthy (executable env) = false ->
  (sw_counter sw < sw_tries sw)%nat ->
  create_loop env self (S fuel) sw success w
  = (Raise (TypeError "'bool' object is not iterable"),
     push (EvLog ERROR "No downburst executable found.") (slept sw w)).
Proof.
  intros He H. cbn [create_loop].
  erewrite bind_ret by (apply proceed_go, H). cbn beta iota.
  erewrite bind_ret by (eapply run_create_no_executable; eassumption).
  reflexivity.
Qed.

Lemma grows_attempted sw w :
  grows (loop_event_ok (String c p)) w (attempted env self (String c p) sw w).
Proof.
  unfold attempted. apply grows_push; [intros _; reflexivity|].
  apply grows_push; [exact I|]. apply grows_slept. exact I.
Qed.

Lemma report_ok r : loop_event_ok (String c p) (destroy_report self r).
Proof.
  unfold destroy_report.
  destruct (PyStr.truthy (err r)); [exact I|].
  destruct (returncode r =? 0)%Z; exact I.
Qed.

Lemma grows_recovered sw w :
  grows (loop_event_ok (String c p)) w (recovered env self (String c p) sw w).
Proof.
  unfold recovered. apply grows_push; [apply report_ok|].
  apply grows_push; [intros H; discriminate H|].
  apply grows_push; [exact I|]. apply grows_attempted.
Qed.

Section Executable.

Hypothesis Hexe : PyStr.truthy (executable env) = true.

(** One turn of the loop when the budget allows an attempt. *)
Lemma create_loop_step fuel sw success w :
  (sw_counter sw < sw_tries sw)%nat ->
  let r := run env "create" (calls "create" (events w)) in
  create_loop env self (S fuel) sw success w
  = if (returncode r =? 0)%Z then
      (Ret (Some true),
       push (EvLog INFO ("Downburst created " ++ name self ++ ": "
                         ++ PyStr.strip (out r)))
         (attempted env self (String c p) sw w))
    else if PyStr.truthy (err r) then
      if PyStr.contains "exists" (err r) then
        create_loop env self fuel (next sw) (Some false)
          (recovered env self (String c p) sw w)
      else
        (Ret (Some false),
         push (EvLog INFO ("Downburst failed on " ++ name self ++ ": "
                           ++ PyStr.strip (err r)))
           (attempted env self (String c p) sw w))
    else create_loop env self fuel (next sw) success
           (attempted env self (String c p) sw w).
Proof.
  intros H r. cbn [create_loop].
  erewrite bind_ret by (apply proceed_go, H). cbn beta iota.
  erewrite bind_ret by (eapply run_create_ok; eassumption). cbn beta iota.
  rewrite calls_slept. fold r.
  destruct (returncode r =? 0)%Z; [reflexivity|].
  destruct (PyStr.truthy (err r)); [|reflexivity].
  destruct (PyStr.contains "exists" (err r)); [|reflexivity].
  erewrite bind_ret by reflexivity. cbn beta iota.
  erewrite bind_ret by (apply destroy_ok, Hexe). cbn beta iota.
  unfold recovered. rewrite <- (calls_slept "destroy" sw w). reflexivity.
Qed.

(** With more fuel than attempts left, the loop returns the [verdict] of
    the tool's answers. *)
Lemma create_loop_value fuel :
  forall sw success w,
    (sw_tries sw - sw_counter sw < fuel)%nat ->
    fst (create_loop env self fuel sw success w)
    = Ret (verdict (run env "create") (calls "create" (events w))
             (sw_tries sw - sw_counter sw) success).
Proof.
  induction fuel as [|fuel IH]; intros sw success w Hlt; [lia|].
  destruct (le_lt_dec (sw_tries sw) (sw_counter sw)) as [Hstop|Hgo].
  { rewrite create_loop_stop by assumption.
    replace (sw_tries sw - sw_counter sw)%nat with 0%nat by lia. reflexivity. }
  assert (Hnext : (sw_tries (next sw) - sw_counter (next sw) < fuel)%nat)
    by (cbn; lia).
  rewrite (create_loop_step fuel sw success w Hgo).
  replace (sw_tries sw - sw_counter sw)%nat
    with (S (sw_tries (next sw) - sw_counter (next sw))) by (cbn; lia).
  cbn [verdict].
  set (r := run env "create" (calls "create" (events w))).
  destruct (returncode r =? 0)%Z; [reflexivity|].
  destruct (PyStr.truthy (err r)).
  - destruct (PyStr.contains "exists" (err r)); [|reflexivity].
    rewrite (IH _ _ _ Hnext), calls_create_recovered. reflexivity.
  - rewrite (IH _ _ _ Hnext), calls_create_attempted. reflexivity.
Qed.

End Executable.

(** The loop builds no descriptor, passes the one it was given to every
    create invocation, and leaves the files alone. *)
Lemma create_loop_grows fuel :
  forall sw success w,
    grows (loop_event_ok (String c p)) w (snd (create_loop env self fuel sw success w)).
Proof.
  induction fuel as [|fuel IH]; intros sw success w; [apply grows_refl|].
  destruct (le_lt_dec (sw_tries sw) (sw_counter sw)) as [Hstop|Hgo].
  { rewrite create_loop_stop by assumption. apply grows_refl. }
  destruct (PyStr.truthy (executable env)) eqn:Hexe.
  - rewrite (create_loop_step Hexe fuel sw success w Hgo).
    set (r := run env "create" (calls "create" (events w))).
    destruct (returncode r =? 0)%Z.
    { apply grows_push; [exact I | apply grows_attempted]. }
    destruct (PyStr.truthy (err r)).
    + destruct (PyStr.contains "exists" (err r)).
      * eapply grows_trans; [apply grows_recovered | apply IH].
      * apply grows_push; [exact I | apply grows_attempted].
    + eapply grows_trans; [apply grows_attempted | apply IH].
  - rewrite (create_loop_no_executable fuel sw success w Hexe Hgo).
    apply grows_push; [exact I|]. apply grows_slept. exact I.
Qed.

(** More fuel than attempts left: the loop bound is never reached. *)
Lemma create_loop_fuel fuel :
  forall sw success w,
    (sw_tries sw - sw_counter sw < fuel)%nat ->
    fst (create_loop env self fuel sw success w) <> Raise LoopFuel.
Proof.
  intros sw success w Hlt.
  destruct (PyStr.truthy (executable env)) eqn:Hexe.
  - rewrite (create_loop_value Hexe fuel sw success w Hlt). discriminate.
  - destruct fuel as [|fuel]; [lia|].
    destruct (le_lt_dec (sw_tries sw) (sw_counter sw)) as [Hstop|Hgo].
    + rewrite create_loop_stop by assumption. discriminate.
    + rewrite (create_loop_no_executable fuel sw success w Hexe Hgo). discriminate.
Qed.

End Loop.

(** ** [create] as a whole *)

Lemma create_built env self w fqdn :
  PyStr.split "@" (name self) !! 1%nat = Some fqdn ->
  let self' := set_config_path self (Some (tmpname (tmp_next w))) in
  let r := create_loop env self' 4 (safe_while 60 3) None (built self fqdn w) in
  value (create env self w) = fst r /\ snd (create env self w) = snd r.
Proof.
  intros Hname self' r. unfold value, create.
  erewrite bind_ret by (apply build_config_ok, Hname). cbn beta iota zeta.
  cbn [sw_tries safe_while]. fold self'. unfold mbind, M_bind. fold r.
  destruct r as [[v|e] w']; split; reflexivity.
Qed.

Lemma create_never_out_of_fuel env self w :
  value (create env self w) <> Raise LoopFuel.
Proof.
  destruct (PyStr.split "@" (name self) !! 1%nat) as [fqdn|] eqn:Hname.
  - destruct (create_built env self w fqdn Hname) as [-> _].
    eapply create_loop_fuel; [apply config_path_built | cbn; lia].
  - unfold value, create. erewrite bind_raise by (apply build_config_bad, Hname).
    discriminate.
Qed.

(** ** The claims *)

(** C1 (the code departs from it).  When no executable is found,
    [_run_create] logs "No downburst executable found." and returns
    [False]; [create] then unpacks that [False] as a triple, so for every
    identity with an [@] the call ends in a [TypeError] after the log
    record, and returns nothing.  Its effects are the temporary file, the
    descriptor written to it, and that log record. *)
Theorem C1_create_raises_without_executable env self w fqdn :
  PyStr.split "@" (name self) !! 1%nat = Some fqdn ->
  PyStr.truthy (executable env) = false ->
  value (create env self w) = Raise (TypeError "'bool' object is not iterable")
  /\ events (snd (create env self w))
     = EvLog ERROR "No downburst executable found."
       :: EvDump (tmpname (tmp_next w)) (file_out self fqdn)
       :: EvTempfile (tmpname (tmp_next w)) :: events w.
Proof.
  intros Hname Hexe.
  destruct (create_built env self w fqdn Hname) as [-> ->].
  erewrite create_loop_no_executable
    by first [apply config_path_built | exact Hexe | cbn; lia].
  split; reflexivity.
Qed.

Lemma C1_create_raises_without_executable_sample :
  value (create Sample.env_no_executable Sample.vm Sample.world0)
  = Raise (TypeError "'bool' object is not iterable")
  /\ events (snd (create Sample.env_no_executable Sample.vm Sample.world0))
     = [EvLog ERROR "No downburst executable found.";
        EvDump "/tmp/tmp0" (file_out Sample.vm "vpm001.front.sepia.ceph.com");
        EvTempfile "/tmp/tmp0"].
Proof.
  exact (C1_create_raises_without_executable Sample.env_no_executable Sample.vm
           Sample.world0 "vpm001.front.sepia.ceph.com" eq_refl eq_refl).
Defined.

(** C2.  On a machine whose status says [is_vm], [create_if_vm] ends in
    the [TypeError] of the keyword [machine_name], which [__init__] does
    not have, and so does [destroy_if_vm] whenever the owner and the
    description pass their checks; neither call runs a subprocess, and
    neither returns. *)
Theorem C2_entry_points_raise env ctx machine_name st w :
  get_status env machine_name = Some st ->
  is_vm st = true ->
  (fst (create_if_vm env ctx machine_name w) = Raise unexpected_machine_name
   /\ popens (events (snd (create_if_vm env ctx machine_name w))) = popens (events w))
  /\ (forall user desc,
        user = None \/ user = locked_by st ->
        desc = None \/ desc = description st ->
        fst (destroy_if_vm env ctx machine_name user desc w)
        = Raise unexpected_machine_name
        /\ snd (destroy_if_vm env ctx machine_name user desc w) = w).
Proof.
  intros Hst Hvm. split.
  - unfold create_if_vm. rewrite Hst, Hvm. cbn [negb].
    destruct (has_custom_config ctx); split; reflexivity.
  - intros user desc Hu Hd. unfold destroy_if_vm. rewrite Hst, Hvm. cbn [negb].
    rewrite bool_decide_eq_false_2
      by (intros [[u Hsome] Hne]; destruct Hu; congruence).
    rewrite bool_decide_eq_false_2
      by (intros [[u Hsome] Hne]; destruct Hd; congruence).
    split; reflexivity.
Qed.

Lemma C2_entry_points_raise_sample :
  fst (create_if_vm Sample.env_ok Sample.ctx "ubuntu@vpm001.front.sepia.ceph.com"
         Sample.world0)
  = Raise unexpected_machine_name
  /\ fst (destroy_if_vm Sample.env_ok Sample.ctx "ubuntu@vpm001.front.sepia.ceph.com"
            (Some "alice") None Sample.world0)
     = Raise unexpected_machine_name.
Proof.
  pose proof (C2_entry_points_raise Sample.env_ok Sample.ctx
                "ubuntu@vpm001.front.sepia.ceph.com" Sample.vm_status Sample.world0
                eq_refl eq_refl) as [[Hc _] Hd].
  split; [exact Hc|].
  exact (proj1 (Hd (Some "alice") None (or_intror eq_refl) (or_introl eq_refl))).
Defined.

(** C3, as stated, fails: the tool exits with 1 and writes nothing to
    standard error (which does not contain "exists"), and [create] goes on
    to use all three attempts and returns [None], not failure. *)
Lemma C3_silent_failure_is_retried :
  returncode (run Sample.env_silent "create" 0) = 1
  /\ PyStr.contains "exists" (err (run Sample.env_silent "create" 0)) = false
  /\ value (create Sample.env_silent Sample.vm Sample.world0) = Ret None
  /\ calls "create" (events (snd (create Sample.env_silent Sample.vm Sample.world0)))
     = 3%nat.
Proof. vm_compute. repeat split; reflexivity. Qed.

(** C3, amended.  At every attempt the budget allows, if the tool exits
    non-zero with a standard error that is not empty and does not contain
    "exists", the loop returns [False] at once: this one create
    invocation, no further one, and no destroy invocation. *)
Theorem C3_fatal_failure_stops env self c p fuel sw success w :
  config_path self = Some (String c p) ->
  PyStr.truthy (executable env) = true ->
  (sw_counter sw < sw_tries sw)%nat ->
  let r := run env "create" (calls "create" (events w)) in
  returncode r <> 0 ->
  PyStr.truthy (err r) = true ->
  PyStr.contains "exists" (err r) = false ->
  let res := create_loop env self (S fuel) sw success w in
  fst res = Ret (Some false)
  /\ calls "create" (events (snd res)) = S (calls "create" (events w))
  /\ calls "destroy" (events (snd res)) = calls "destroy" (events w).
Proof.
  intros Hcfg Hexe Hgo r Hrc Herr Hex res. subst res.
  rewrite (create_loop_step env self c p Hcfg Hexe fuel sw success w Hgo).
  fold r. apply Z.eqb_neq in Hrc. rewrite Hrc, Herr, Hex.
  cbn [fst snd events push]. rewrite !calls_cons.
  rewrite calls_create_attempted, calls_destroy_attempted. auto.
Qed.

Lemma C3_fatal_failure_stops_sample :
  fst (create_loop Sample.env_fatal Sample.vm_built 4 (safe_while 60 3) None
         Sample.world_built)
  = Ret (Some false)
  /\ calls "create"
       (events (snd (create_loop Sample.env_fatal Sample.vm_built 4 (safe_while 60 3)
                       None Sample.world_built)))
     = 1%nat
  /\ calls "destroy"
       (events (snd (create_loop Sample.env_fatal Sample.vm_built 4 (safe_while 60 3)
                       None Sample.world_built)))
     = 0%nat.
Proof.
  apply (C3_fatal_failure_stops Sample.env_fatal Sample.vm_built "/" "tmp/tmp0" 3
           (safe_while 60 3) None Sample.world_built);
    [reflexivity | reflexivity | cbn; lia | discriminate | reflexivity | reflexivity].
Defined.

(** C4 (the code departs from it).  A first [remove_config] on a
    controller whose descriptor file exists removes the file, answers
    [True] and sets [config_path] to [None]; the second call then hands
    that [None] to [os.path.exists] and ends in a [TypeError] instead of
    answering [False]. *)
Theorem C4_second_remove_config_raises self w p :
  config_path self = Some p ->
  is_Some (files w !! p) ->
  let first := remove_config self w in
  fst first = Ret (true, set_config_path self None)
  /\ files (snd first) !! p = None
  /\ fst (remove_config (set_config_path self None) (snd first)) = Raise path_is_None.
Proof.
  intros Hp Hfile first. subst first. unfold remove_config at 1 2.
  rewrite Hp.
  erewrite bind_ret
    by (unfold path_exists; rewrite (bool_decide_eq_true_2 _ Hfile); reflexivity).
  cbn beta iota. erewrite bind_ret by reflexivity. cbn [fst snd mret M_ret].
  split; [reflexivity|]. split; [apply lookup_delete_eq | reflexivity].
Qed.

Lemma C4_second_remove_config_raises_sample :
  fst (remove_config Sample.vm_built Sample.world_built)
  = Ret (true, set_config_path Sample.vm_built None)
  /\ files (snd (remove_config Sample.vm_built Sample.world_built)) !! "/tmp/tmp0" = None
  /\ fst (remove_config (set_config_path Sample.vm_built None)
            (snd (remove_config Sample.vm_built Sample.world_built)))
     = Raise path_is_None.
Proof.
  apply (C4_second_remove_config_raises Sample.vm_built Sample.world_built "/tmp/tmp0");
    [reflexivity | eexists; vm_compute; reflexivity].
Defined.

(** C5.  The descriptor is built and an executable is found, so that the
    tool is invoked at all; it answers the first create with a non-zero
    exit code and "exists" in its standard error, and the second with exit
    code 0.  Then [create] returns [True] after exactly one destroy
    invocation and exactly two create invocations. *)
Theorem C5_conflict_then_success env self w fqdn :
  PyStr.split "@" (name self) !! 1%nat = Some fqdn ->
  PyStr.truthy (executable env) = true ->
  let k := calls "create" (events w) in
  returncode (run env "create" k) <> 0 ->
  PyStr.contains "exists" (err (run env "create" k)) = true ->
  returncode (run env "create" (S k)) = 0 ->
  let res := create env self w in
  value res = Ret (Some true)
  /\ calls "destroy" (events (snd res)) = S (calls "destroy" (events w))
  /\ calls "create" (events (snd res)) = (2 + calls "create" (events w))%nat.
Proof.
  intros Hname Hexe k Hrc1 Hex Hrc2 res. subst res.
  destruct (create_built env self w fqdn Hname) as [-> ->].
  pose proof (config_path_built self (tmp_next w)) as Hcfg.
  rewrite (create_loop_step env _ _ _ Hcfg Hexe) by (cbn; lia).
  rewrite calls_built. fold k.
  apply Z.eqb_neq in Hrc1. rewrite Hrc1, Hex.
  rewrite (contains_truthy "exists" _ eq_refl Hex).
  rewrite (create_loop_step env _ _ _ Hcfg Hexe) by (cbn; lia).
  rewrite calls_create_recovered, calls_built. fold k.
  rewrite Hrc2. cbn [Z.eqb fst snd events push].
  rewrite !calls_cons, calls_create_attempted, calls_destroy_attempted.
  rewrite calls_create_recovered, calls_destroy_recovered, !calls_built.
  auto.
Qed.

Lemma C5_conflict_then_success_sample :
  value (create Sample.env_conflict_once Sample.vm Sample.world0) = Ret (Some true)
  /\ calls "destroy"
       (events (snd (create Sample.env_conflict_once Sample.vm Sample.world0)))
     = 1%nat
  /\ calls "create"
       (events (snd (create Sample.env_conflict_once Sample.vm Sample.world0)))
     = 2%nat.
Proof.
  apply (C5_conflict_then_success Sample.env_conflict_once Sample.vm Sample.world0
           "vpm001.front.sepia.ceph.com");
    [reflexivity | reflexivity | discriminate | reflexivity | reflexivity].
Defined.






(** C8, as stated, fails: for the identity ubuntu@vpm001@backup the
    descriptor's local hostname is vpm001, while the text after the first
    [@] is vpm001@backup. *)
Lemma C8_second_separator_cuts_hostname :
  local_hostname
    <$> descriptor (snd (build_config Sample.vm_two_ats Sample.world0)) "/tmp/tmp0"
  = Some "vpm001"
  /\ after_first "@" (name Sample.vm_two_ats) = Some "vpm001@backup".
Proof. vm_compute. split; reflexivity. Qed.

(** C8, amended.  The descriptor's local hostname is the text between the
    first [@] of the identity and the next [@], or the end when there is
    no other; for every identity [h@l] whose parts hold no [@] it is [l];
    and for an identity without [@] [build_config] raises an
    [IndexError]. *)
Theorem C8_local_hostname self w :
  let res := build_config self w in
  let p := tmpname (tmp_next w) in
  (forall h l,
      PyStr.has_char "@" h = false -> name self = h ++ "@" ++ l ->
      local_hostname <$> descriptor (snd res) p = Some (up_to "@" l))
  /\ (forall h l,
        PyStr.has_char "@" h = false -> PyStr.has_char "@" l = false ->
        name self = h ++ "@" ++ l ->
        local_hostname <$> descriptor (snd res) p = Some l)
  /\ (PyStr.has_char "@" (name self) = false ->
      fst res = Raise (IndexError "list index out of range")).
Proof.
  intros res p. subst res p.
  assert (Hgen : forall h l,
             PyStr.has_char "@" h = false -> name self = h ++ "@" ++ l ->
             local_hostname <$> descriptor (snd (build_config self w))
                                  (tmpname (tmp_next w))
             = Some (up_to "@" l)).
  { intros h l Hh Hn.
    rewrite (build_config_ok self w (up_to "@" l))
      by (rewrite Hn; apply split_second, Hh).
    cbn [snd]. rewrite descriptor_built. reflexivity. }
  split; [exact Hgen|]. split.
  - intros h l Hh Hl Hn. rewrite (Hgen h l Hh Hn), (up_to_no_sep _ _ Hl). reflexivity.
  - intros Hn. rewrite build_config_bad; [reflexivity|].
    rewrite (split_no_sep _ _ Hn). reflexivity.
Qed.

Lemma C8_local_hostname_sample :
  local_hostname
    <$> descriptor (snd (build_config Sample.vm Sample.world0)) "/tmp/tmp0"
  = Some "vpm001.front.sepia.ceph.com".
Proof.
  exact (proj1 (proj2 (C8_local_hostname Sample.vm Sample.world0))
           "ubuntu" "vpm001.front.sepia.ceph.com" eq_refl eq_refl eq_refl).
Defined.

(** C9.  When an executable is found, [destroy] runs the tool once and
    answers by its result: [False] when the standard error is not empty,
    whatever the exit code; [True] when it is empty and the exit code is
    0; [False] when it is empty and the exit code is not 0. *)
Theorem C9_destroy_classification env self w :
  PyStr.truthy (executable env) = true ->
  let r := run env "destroy" (calls "destroy" (events w)) in
  let res := destroy env self w in
  (err r <> "" -> fst res = Ret false)
  /\ (err r = "" -> returncode r = 0 -> fst res = Ret true)
  /\ (err r = "" -> returncode r <> 0 -> fst res = Ret false)
  /\ popens (events (snd res))
     = destroy_args env self (executable env) :: popens (events w).
Proof.
  intros Hexe r res. subst res. rewrite (destroy_ok env self w Hexe). fold r.
  cbn [fst snd]. unfold destroy_verdict. repeat split.
  - intros H. apply truthy_nonempty in H. rewrite H. reflexivity.
  - intros He Hrc. rewrite He, Hrc. reflexivity.
  - intros He Hrc. rewrite He. apply Z.eqb_neq in Hrc. rewrite Hrc. reflexivity.
  - cbn [events push]. unfold destroy_report.
    destruct (PyStr.truthy (err r)); [reflexivity|].
    destruct (returncode r =? 0)%Z; reflexivity.
Qed.

Lemma C9_destroy_classification_sample :
  fst (destroy Sample.env_ok Sample.vm Sample.world0) = Ret true
  /\ fst (destroy Sample.env_fatal Sample.vm Sample.world0) = Ret false
  /\ fst (destroy Sample.env_silent Sample.vm Sample.world0) = Ret false.
Proof.
  split; [|split].
  - exact (proj1 (proj2 (C9_destroy_classification Sample.env_ok Sample.vm
                           Sample.world0 eq_refl)) eq_refl eq_refl).
  - apply (proj1 (C9_destroy_classification Sample.env_fatal Sample.vm
                    Sample.world0 eq_refl)). discriminate.
  - apply (proj1 (proj2 (proj2 (C9_destroy_classification Sample.env_silent Sample.vm
                                  Sample.world0 eq_refl))));
      [reflexivity | discriminate].
Defined.

(** C10.  The checks are read in the order the entry point makes them:
    is the target a VM, then the owner, then the description.  On a
    target that is a VM, a given owner or a given description that
    differs from the one of the lock-status record makes [destroy_if_vm]
    answer [False] without a subprocess; on a target that is no VM (no
    status record, or [is_vm] false) it answers [True] without any
    effect, whatever owner and description are given. *)
Theorem C10_gated_destroy env ctx machine_name user desc w :
  let res := destroy_if_vm env ctx machine_name user desc w in
  (forall st,
      get_status env machine_name = Some st -> is_vm st = true ->
      (is_Some user /\ user <> locked_by st)
      \/ (is_Some desc /\ desc <> description st) ->
      fst res = Ret false /\ popens (events (snd res)) = popens (events w))
  /\ (get_status env machine_name = None
      \/ (exists st, get_status env machine_name = Some st /\ is_vm st = false) ->
      fst res = Ret true /\ snd res = w).
Proof.
  intros res. subst res. unfold destroy_if_vm. split.
  - intros st Hst Hvm Hbad. rewrite Hst, Hvm. cbn [negb].
    destruct (bool_decide (is_Some user ∧ user ≠ locked_by st)) eqn:Hu.
    { split; reflexivity. }
    destruct Hbad as [Hbad|Hbad].
    { apply bool_decide_eq_false_1 in Hu. contradiction. }
    rewrite (bool_decide_eq_true_2 _ Hbad). split; reflexivity.
  - intros [Hnone | (st & Hst & Hvm)].
    + rewrite Hnone. split; reflexivity.
    + rewrite Hst, Hvm. split; reflexivity.
Qed.

Lemma C10_gated_destroy_sample :
  (fst (destroy_if_vm Sample.env_ok Sample.ctx "ubuntu@vpm001.front.sepia.ceph.com"
          (Some "bob") None Sample.world0)
   = Ret false
   /\ popens (events (snd (destroy_if_vm Sample.env_ok Sample.ctx
                             "ubuntu@vpm001.front.sepia.ceph.com"
                             (Some "bob") None Sample.world0)))
      = [])
  /\ fst (destroy_if_vm Sample.env_physical Sample.ctx "plana01" None None
            Sample.world0)
     = Ret true.
Proof.
  split.
  - apply (proj1 (C10_gated_destroy Sample.env_ok Sample.ctx
                    "ubuntu@vpm001.front.sepia.ceph.com" (Some "bob") None
                    Sample.world0)
             Sample.vm_status eq_refl eq_refl).
    left. split; [eexists; reflexivity | discriminate].
  - apply (proj2 (C10_gated_destroy Sample.env_physical Sample.ctx "plana01" None None
                    Sample.world0)).
    right. exists Sample.physical_status. split; reflexivity.
Defined.

(** ** Further properties: resolving the executable *)

Lemma find_app {A} (f : A -> bool) (l1 l2 : list A) :
  List.find f (l1 ++ l2)%list
  = match List.find f l1 with
    | Some x => Some x
    | None => List.find f l2
    end.
Proof.
  induction l1 as [|x l1 IH]; cbn; [reflexivity|].
  destruct (f x); [reflexivity | exact IH].
Qed.

Lemma find_first {A} (f : A -> bool) (pre post : list A) x :
  Forall (fun y => f y = false) pre -> f x = true ->
  List.find f (pre ++ x :: post)%list = Some x.
Proof.
  intros Hpre Hx. induction Hpre as [|y pre Hy _ IH]; cbn.
  - rewrite Hx. reflexivity.
  - rewrite Hy. exact IH.
Qed.

Lemma find_nothing {A} (f : A -> bool) (l : list A) :
  Forall (fun y => f y = false) l -> List.find f l = None.
Proof.
  intros H. induction H as [|y l Hy _ IH]; cbn; [reflexivity|].
  rewrite Hy. exact IH.
Qed.

(** Without a configured path, [executable] is the first executable
    candidate, or [''] when there is none. *)
Lemma executable_unconfigured env :
  unconfigured env = true ->
  executable env = default "" (List.find (access_X_OK env) (candidates env)).
Proof.
  intros Hc. unfold executable, candidates, path_candidates, home_candidates.
  rewrite find_app. unfold unconfigured in Hc.
  destruct (config_downburst env) as [[|c s]|]; try discriminate;
    destruct (environ_PATH env) as [[|c' s']|]; cbn [List.find];
    repeat match goal with
           | |- context [List.find ?f ?l] => destruct (List.find f l)
           end; reflexivity.
Qed.

(** X1.  What [executable] returns is the empty string, or the configured
    [config.downburst], or one of the candidates (a directory of [PATH]
    joined with downburst, or one of the three per-user installations)
    that [os.access] reports executable. *)
Theorem executable_sound env :
  executable env = ""
  \/ config_downburst env = Some (executable env)
  \/ (In (executable env) (candidates env)
      /\ access_X_OK env (executable env) = true).
Proof.
  destruct (unconfigured env) eqn:Hc.
  - rewrite (executable_unconfigured env Hc).
    destruct (List.find (access_X_OK env) (candidates env)) as [x|] eqn:Hf.
    + right. right. apply List.find_some in Hf. exact Hf.
    + left. reflexivity.
  - right. left. unfold unconfigured in Hc. unfold executable.
    destruct (config_downburst env) as [[|c s]|]; try discriminate. reflexivity.
Qed.

(** X2.  With [config.downburst] unset, the first match wins: the
    candidates are tried in the order of the directories of [PATH], then
    the installation of the current user, of ubuntu and of teuthology, and
    the first one that is executable is returned, whatever comes after
    it. *)
Theorem executable_first_match env pre x post :
  unconfigured env = true ->
  candidates env = (pre ++ x :: post)%list ->
  Forall (fun y => access_X_OK env y = false) pre ->
  access_X_OK env x = true ->
  executable env = x.
Proof.
  intros Hc Hcand Hpre Hx. rewrite (executable_unconfigured env Hc), Hcand.
  rewrite (find_first _ _ _ _ Hpre Hx). reflexivity.
Qed.

Lemma executable_first_match_sample :
  executable Sample.env_fallback
  = "/home/ubuntu/src/downburst/virtualenv/bin/downburst".
Proof.
  apply (executable_first_match Sample.env_fallback
           ["/usr/bin/downburst"; "/home/tester/src/downburst/virtualenv/bin/downburst"]
           "/home/ubuntu/src/downburst/virtualenv/bin/downburst"
           ["/home/teuthology/src/downburst/virtualenv/bin/downburst"]);
    [reflexivity | reflexivity | repeat constructor | reflexivity].
Defined.

(** X3.  With [config.downburst] unset and no candidate executable,
    [executable] returns the empty string. *)
Theorem executable_not_found env :
  unconfigured env = true ->
  Forall (fun y => access_X_OK env y = false) (candidates env) ->
  executable env = "".
Proof.
  intros Hc Hnone. rewrite (executable_unconfigured env Hc).
  rewrite (find_nothing _ _ Hnone). reflexivity.
Qed.

Lemma executable_not_found_sample : executable Sample.env_no_executable = "".
Proof.
  apply (executable_not_found Sample.env_no_executable);
    [reflexivity | repeat constructor].
Defined.

(** ** Further properties: destroy *)

Lemma destroy_no_executable env self w :
  PyStr.truthy (executable env) = false ->
  destroy env self w
  = (Ret false, push (EvLog ERROR "No downburst executable found.") w).
Proof. intros He. unfold destroy. rewrite He. reflexivity. Qed.

Lemma popens_cons e evs :
  popens (e :: evs)
  = match e with
    | EvPopen argv => argv :: popens evs
    | _ => popens evs
    end.
Proof. destruct e; reflexivity. Qed.

Lemma popens_report self r evs :
  popens (destroy_report self r :: evs) = popens evs.
Proof.
  unfold destroy_report. destruct (PyStr.truthy (err r)); [reflexivity|].
  destruct (returncode r =? 0)%Z; reflexivity.
Qed.

Lemma popens_slept sw w : popens (events (slept sw w)) = popens (events w).
Proof. unfold slept. destruct (1 <? _)%nat; reflexivity. Qed.

Lemma popens_attempted env self path sw w :
  popens (events (attempted env self path sw w))
  = create_args env self (executable env) path :: popens (events w).
Proof.
  unfold attempted. cbn [events push]. rewrite !popens_cons. cbn iota.
  unfold provisioning. cbn iota. rewrite popens_slept. reflexivity.
Qed.

Lemma popens_recovered env self path sw w :
  popens (events (recovered env self path sw w))
  = destroy_args env self (executable env)
    :: create_args env self (executable env) path :: popens (events w).
Proof.
  unfold recovered. cbn [events push]. rewrite popens_report, !popens_cons. cbn iota.
  rewrite popens_attempted. reflexivity.
Qed.

(** X4.  Without an executable [destroy] answers [False] after one error
    log record and runs no subprocess.  With an executable, whenever the
    subprocess call returns an answer, [destroy] answers [True] exactly
    when that answer has an empty standard error and exit code 0, after
    that one invocation of its destroy command line and without changing
    a file. *)
Theorem destroy_answer env self w :
  (PyStr.truthy (executable env) = false ->
   destroy env self w
   = (Ret false, push (EvLog ERROR "No downburst executable found.") w))
  /\ (PyStr.truthy (executable env) = true ->
      forall r w1,
        Popen env (destroy_args env self (executable env)) w = (Ret r, w1) ->
        fst (destroy env self w)
        = Ret (negb (PyStr.truthy (err r)) && (returncode r =? 0)%Z)
        /\ popens (events (snd (destroy env self w)))
           = destroy_args env self (executable env) :: popens (events w)
        /\ files (snd (destroy env self w)) = files w).
Proof.
  split; [apply destroy_no_executable|].
  intros Hexe r w1 Hrun. unfold Popen in Hrun. injection Hrun as <- _.
  rewrite (destroy_ok env self w Hexe). cbn [fst snd events push files].
  rewrite popens_report. unfold destroy_verdict.
  destruct (PyStr.truthy (err _)); repeat split; reflexivity.
Qed.

Lemma destroy_answer_sample :
  destroy Sample.env_no_executable Sample.vm Sample.world0
  = (Ret false, push (EvLog ERROR "No downburst executable found.") Sample.world0)
  /\ fst (destroy Sample.env_ok Sample.vm Sample.world0) = Ret true.
Proof.
  split.
  - exact (proj1 (destroy_answer Sample.env_no_executable Sample.vm Sample.world0)
             eq_refl).
  - exact (proj1 (proj2 (destroy_answer Sample.env_ok Sample.vm Sample.world0)
                    eq_refl _ _ eq_refl)).
Defined.

(** ** Further properties: create *)

(** X5.  When the descriptor is built, an executable is found and the
    tool exits with 0 on the first attempt, [create] returns [True] after
    exactly these effects: the temporary file, the descriptor written to
    it, the provisioning log record, one create invocation on that file,
    and the success log record; no destroy, no sleep, no second
    attempt. *)
Theorem create_first_attempt env self w fqdn :
  PyStr.split "@" (name self) !! 1%nat = Some fqdn ->
  PyStr.truthy (executable env) = true ->
  let r := run env "create" (calls "create" (events w)) in
  returncode r = 0 ->
  let p := tmpname (tmp_next w) in
  value (create env self w) = Ret (Some true)
  /\ events (snd (create env self w))
     = EvLog INFO ("Downburst created " ++ name self ++ ": " ++ PyStr.strip (out r))
       :: EvPopen (create_args env self (executable env) p)
       :: provisioning self
       :: EvDump p (file_out self fqdn)
       :: EvTempfile p :: events w.
Proof.
  intros Hname Hexe r Hrc p.
  destruct (create_built env self w fqdn Hname) as [-> ->].
  pose proof (config_path_built self (tmp_next w)) as Hcfg.
  rewrite (create_loop_step env _ _ _ Hcfg Hexe) by (cbn; lia).
  rewrite calls_built. fold r. rewrite Hrc. split; reflexivity.
Qed.

Lemma create_first_attempt_sample :
  value (create Sample.env_ok Sample.vm Sample.world0) = Ret (Some true)
  /\ events (snd (create Sample.env_ok Sample.vm Sample.world0))
     = [EvLog INFO "Downburst created ubuntu@vpm001.front.sepia.ceph.com: created";
        EvPopen ["/usr/bin/downburst"; "-c"; "mira001"; "create";
                 "--meta-data=/tmp/tmp0"; "ubuntu@vpm001"];
        EvLog INFO "Provisioning a Ubuntu 12.04 vps";
        EvDump "/tmp/tmp0" (file_out Sample.vm "vpm001.front.sepia.ceph.com");
        EvTempfile "/tmp/tmp0"].
Proof.
  exact (create_first_attempt Sample.env_ok Sample.vm Sample.world0
           "vpm001.front.sepia.ceph.com" eq_refl eq_refl eq_refl).
Defined.

(** X6.  When each of the three attempts meets a stale guest (non-zero
    exit code, "exists" in the standard error), the tool is run six
    times, in the order create, destroy, create, destroy, create,
    destroy (the list below has the most recent first): the last thing
    [create] does to the guest is to destroy it, and it is not created
    again.  When [create] then returns, it returns [False]. *)
Theorem create_persistent_conflict env self w fqdn :
  PyStr.split "@" (name self) !! 1%nat = Some fqdn ->
  PyStr.truthy (executable env) = true ->
  let k := calls "create" (events w) in
  (forall i, (i < 3)%nat ->
     returncode (run env "create" (k + i)) <> 0
     /\ PyStr.contains "exists" (err (run env "create" (k + i))) = true) ->
  let res := create env self w in
  let c := create_args env self (executable env) (tmpname (tmp_next w)) in
  let d := destroy_args env self (executable env) in
  popens (events (snd res)) = d :: c :: d :: c :: d :: c :: popens (events w)
  /\ (forall v, value res = Ret v -> v = Some false).
Proof.
  intros Hname Hexe k Hall res c d. subst res c d.
  destruct (create_built env self w fqdn Hname) as [-> ->].
  pose proof (config_path_built self (tmp_next w)) as Hcfg.
  destruct (Hall 0%nat ltac:(lia)) as [H0 E0].
  destruct (Hall 1%nat ltac:(lia)) as [H1 E1].
  destruct (Hall 2%nat ltac:(lia)) as [H2 E2].
  replace (k + 0)%nat with k in * by lia.
  replace (k + 1)%nat with (S k) in * by lia.
  replace (k + 2)%nat with (S (S k)) in * by lia.
  apply Z.eqb_neq in H0, H1, H2.
  rewrite (create_loop_step env _ _ _ Hcfg Hexe) by (cbn; lia).
  rewrite calls_built. fold k.
  rewrite H0, E0, (contains_truthy "exists" _ eq_refl E0).
  rewrite (create_loop_step env _ _ _ Hcfg Hexe) by (cbn; lia).
  rewrite calls_create_recovered, calls_built. fold k.
  rewrite H1, E1, (contains_truthy "exists" _ eq_refl E1).
  rewrite (create_loop_step env _ _ _ Hcfg Hexe) by (cbn; lia).
  rewrite !calls_create_recovered, calls_built. fold k.
  rewrite H2, E2, (contains_truthy "exists" _ eq_refl E2).
  rewrite create_loop_stop by (cbn; lia).
  cbn [fst snd]. rewrite !popens_recovered. split; [reflexivity|].
  intros v Hv. injection Hv as <-. reflexivity.
Qed.

Lemma create_persistent_conflict_sample :
  popens (events (snd (create Sample.env_conflict_always Sample.vm Sample.world0)))
  = [ ["/usr/bin/downburst"; "-c"; "mira001"; "destroy"; "ubuntu@vpm001"];
      ["/usr/bin/downburst"; "-c"; "mira001"; "create"; "--meta-data=/tmp/tmp0";
       "ubuntu@vpm001"];
      ["/usr/bin/downburst"; "-c"; "mira001"; "destroy"; "ubuntu@vpm001"];
      ["/usr/bin/downburst"; "-c"; "mira001"; "create"; "--meta-data=/tmp/tmp0";
       "ubuntu@vpm001"];
      ["/usr/bin/downburst"; "-c"; "mira001"; "destroy"; "ubuntu@vpm001"];
      ["/usr/bin/downburst"; "-c"; "mira001"; "create"; "--meta-data=/tmp/tmp0";
       "ubuntu@vpm001"] ]
  /\ (forall v,
        value (create Sample.env_conflict_always Sample.vm Sample.world0) = Ret v ->
        v = Some false).
Proof.
  apply (create_persistent_conflict Sample.env_conflict_always Sample.vm Sample.world0
           "vpm001.front.sepia.ceph.com"); [reflexivity | reflexivity |].
  intros i _. split; [discriminate | reflexivity].
Defined.

Section LoopMore.

Variables (env : Env) (self : Downburst) (c : ascii) (p : string).
Hypothesis Hcfg : config_path self = Some (String c p).

Lemma commands_attempted sw w :
  grows (command_ok env self (String c p)) w (attempted env self (String c p) sw w).
Proof.
  unfold attempted. apply grows_push; [left; reflexivity|].
  apply grows_push; [exact I|]. apply grows_slept. exact I.
Qed.

Lemma commands_recovered sw w :
  grows (command_ok env self (String c p)) w (recovered env self (String c p) sw w).
Proof.
  unfold recovered. apply grows_push.
  { unfold destroy_report. destruct (PyStr.truthy _); [exact I|].
    destruct (returncode _ =? 0)%Z; exact I. }
  apply grows_push; [right; reflexivity|].
  apply grows_push; [exact I|]. apply commands_attempted.
Qed.

Lemma create_loop_commands fuel :
  forall sw success w,
    grows (command_ok env self (String c p)) w
      (snd (create_loop env self fuel sw success w)).
Proof.
  induction fuel as [|fuel IH]; intros sw success w; [apply grows_refl|].
  destruct (le_lt_dec (sw_tries sw) (sw_counter sw)) as [Hstop|Hgo].
  { rewrite create_loop_stop by assumption. apply grows_refl. }
  destruct (PyStr.truthy (executable env)) eqn:Hexe.
  - rewrite (create_loop_step env self c p Hcfg Hexe fuel sw success w Hgo).
    set (r := run env "create" (calls "create" (events w))).
    destruct (returncode r =? 0)%Z.
    { apply grows_push; [exact I | apply commands_attempted]. }
    destruct (PyStr.truthy (err r)).
    + destruct (PyStr.contains "exists" (err r)).
      * eapply grows_trans; [apply commands_recovered | apply IH].
      * apply grows_push; [exact I | apply commands_attempted].
    + eapply grows_trans; [apply commands_attempted | apply IH].
  - rewrite (create_loop_no_executable env self c p Hcfg fuel sw success w Hexe Hgo).
    apply grows_push; [exact I|]. apply grows_slept. exact I.
Qed.

(** The loop runs at most as many create invocations as attempts are
    left, and never more destroy than create invocations. *)
Lemma create_loop_counts fuel :
  forall sw success w,
    exists n m,
      calls "create" (events (snd (create_loop env self fuel sw success w)))
      = (n + calls "create" (events w))%nat
      /\ calls "destroy" (events (snd (create_loop env self fuel sw success w)))
         = (m + calls "destroy" (events w))%nat
      /\ (m <= n)%nat /\ (n <= sw_tries sw - sw_counter sw)%nat.
Proof.
  induction fuel as [|fuel IH]; intros sw success w.
  { exists 0%nat, 0%nat. cbn. repeat split; lia. }
  destruct (le_lt_dec (sw_tries sw) (sw_counter sw)) as [Hstop|Hgo].
  { rewrite create_loop_stop by assumption.
    exists 0%nat, 0%nat. cbn. repeat split; lia. }
  destruct (PyStr.truthy (executable env)) eqn:Hexe.
  - rewrite (create_loop_step env self c p Hcfg Hexe fuel sw success w Hgo).
    set (r := run env "create" (calls "create" (events w))).
    assert (Hone : forall e, is_call "create" e = false -> is_call "destroy" e = false ->
              exists n m,
                calls "create" (events (push e (attempted env self (String c p) sw w)))
                = (n + calls "create" (events w))%nat
                /\ calls "destroy" (events (push e (attempted env self (String c p) sw w)))
                   = (m + calls "destroy" (events w))%nat
                /\ (m <= n)%nat /\ (n <= sw_tries sw - sw_counter sw)%nat).
    { intros e Hc Hd. exists 1%nat, 0%nat. cbn [events push].
      rewrite !calls_cons, Hc, Hd, calls_create_attempted, calls_destroy_attempted.
      repeat split; lia. }
    destruct (returncode r =? 0)%Z; [apply Hone; reflexivity|].
    destruct (PyStr.truthy (err r)).
    + destruct (PyStr.contains "exists" (err r)); [|apply Hone; reflexivity].
      destruct (IH (next sw) (Some false) (recovered env self (String c p) sw w))
        as (n & m & Hn & Hm & Hle & Hb).
      exists (S n), (S m). rewrite Hn, Hm.
      rewrite calls_create_recovered, calls_destroy_recovered.
      cbn [sw_tries sw_counter next] in Hb. repeat split; lia.
    + destruct (IH (next sw) success (attempted env self (String c p) sw w))
        as (n & m & Hn & Hm & Hle & Hb).
      exists (S n), m. rewrite Hn, Hm.
      rewrite calls_create_attempted, calls_destroy_attempted.
      cbn [sw_tries sw_counter next] in Hb. repeat split; lia.
  - rewrite (create_loop_no_executable env self c p Hcfg fuel sw success w Hexe Hgo).
    exists 0%nat, 0%nat. cbn [snd events push]. rewrite !calls_cons, !calls_slept.
    cbn. repeat split; lia.
Qed.

End LoopMore.

(** X7.  Every call of [create], whatever the tool answers and whether it
    returns or raises, runs at most three create invocations, never more
    destroy than create invocations, and makes exactly one temporary
    file. *)
Theorem create_bounded env self w :
  let res := create env self w in
  exists n m,
    calls "create" (events (snd res)) = (n + calls "create" (events w))%nat
    /\ calls "destroy" (events (snd res)) = (m + calls "destroy" (events w))%nat
    /\ (m <= n)%nat /\ (n <= 3)%nat
    /\ tempfiles (events (snd res)) = S (tempfiles (events w)).
Proof.
  intros res. subst res.
  destruct (PyStr.split "@" (name self) !! 1%nat) as [fqdn|] eqn:Hname.
  - destruct (create_built env self w fqdn Hname) as [_ ->].
    pose proof (config_path_built self (tmp_next w)) as Hcfg.
    destruct (create_loop_counts env _ _ _ Hcfg 4 (safe_while 60 3) None
                (built self fqdn w)) as (n & m & Hn & Hm & Hle & Hb).
    destruct (create_loop_grows env _ _ _ Hcfg 4 (safe_while 60 3) None
                (built self fqdn w)) as [_ (evs & Hev & Hall)].
    exists n, m. rewrite Hn, Hm, !calls_built. cbn in Hb.
    repeat split; try lia.
    rewrite Hev. unfold tempfiles. rewrite List.filter_app, List.length_app.
    replace (List.length (List.filter is_tempfile evs)) with 0%nat; [reflexivity|].
    clear Hev. induction Hall as [|e evs He _ IH]; [reflexivity|].
    destruct e; cbn in He |- *; try exact IH; contradiction.
  - exists 0%nat, 0%nat. unfold create.
    erewrite bind_raise by (apply build_config_bad, Hname).
    repeat split; try lia.
Qed.

(** X8.  Every call of [create] first makes its temporary file and, for
    an identity with an [@], writes the descriptor to it; whatever
    follows is a log record, a sleep, or an invocation of the resolved
    executable with this controller's create command line (on that file)
    or its destroy command line.  [create] runs no other command, writes
    no other file and never removes a file, its own descriptor
    included. *)
Theorem create_commands env self w :
  let res := create env self w in
  let p := tmpname (tmp_next w) in
  exists evs,
    Forall (command_ok env self p) evs
    /\ events (snd res)
       = (evs
          ++ match PyStr.split "@" (name self) !! 1%nat with
             | Some fqdn => [EvDump p (file_out self fqdn)]
             | None => []
             end
          ++ EvTempfile p :: events w)%list.
Proof.
  intros res p. subst res.
  destruct (PyStr.split "@" (name self) !! 1%nat) as [fqdn|] eqn:Hname.
  - destruct (create_built env self w fqdn Hname) as [_ ->].
    destruct (create_loop_commands env _ _ _ (config_path_built self (tmp_next w))
                4 (safe_while 60 3) None (built self fqdn w))
      as [_ (evs & Hev & Hall)].
    exists evs. split; [exact Hall | exact Hev].
  - exists []. unfold create.
    erewrite bind_raise by (apply build_config_bad, Hname).
    split; [constructor | reflexivity].
Qed.

(** X9.  When the descriptor is built and an executable is found,
    [create] returns [True] exactly when some attempt among the three
    exits with 0 and every attempt before it was one the loop retries (a
    non-zero exit code with a standard error that is empty or contains
    "exists"). *)
Theorem create_success_iff env self w fqdn :
  PyStr.split "@" (name self) !! 1%nat = Some fqdn ->
  PyStr.truthy (executable env) = true ->
  let a := fun i => run env "create" (calls "create" (events w) + i) in
  exists v : option bool,
    value (create env self w) = Ret v
    /\ (v = Some true <->
        exited_ok (a 0%nat)
        || retried (a 0%nat) && exited_ok (a 1%nat)
        || retried (a 0%nat) && retried (a 1%nat) && exited_ok (a 2%nat) = true).
Proof.
  intros Hname Hexe a.
  destruct (create_built env self w fqdn Hname) as [-> _].
  rewrite (create_loop_value env _ _ _ (config_path_built self (tmp_next w)) Hexe)
    by (cbn; lia).
  rewrite calls_built. eexists. split; [reflexivity|].
  subst a. cbn beta.
  replace (calls "create" (events w) + 0)%nat with (calls "create" (events w)) by lia.
  replace (calls "create" (events w) + 1)%nat with (S (calls "create" (events w))) by lia.
  replace (calls "create" (events w) + 2)%nat
    with (S (S (calls "create" (events w)))) by lia.
  cbn [sw_tries sw_counter safe_while Nat.sub verdict]. unfold exited_ok, retried.
  repeat match goal with
         | |- context [if ?b then _ else _] => destruct b
         end;
    cbn [negb andb orb]; split; intros; try discriminate; try reflexivity.
Qed.

Lemma create_success_iff_sample :
  exists v : option bool,
    value (create Sample.env_conflict_once Sample.vm Sample.world0) = Ret v
    /\ (v = Some true <->
        exited_ok (run Sample.env_conflict_once "create" 0)
        || retried (run Sample.env_conflict_once "create" 0)
           && exited_ok (run Sample.env_conflict_once "create" 1)
        || retried (run Sample.env_conflict_once "create" 0)
           && retried (run Sample.env_conflict_once "create" 1)
           && exited_ok (run Sample.env_conflict_once "create" 2) = true).
Proof.
  exact (create_success_iff Sample.env_conflict_once Sample.vm Sample.world0
           "vpm001.front.sepia.ceph.com" eq_refl eq_refl).
Defined.

(** X10.  The value of [create] depends on the tool's answers to the
    create invocations only: two runs of the same controller, in
    environments that both find an executable and answer the create
    invocations alike, return the same value, whatever destroy answers
    during conflict recovery ([self.destroy()] is called for its effect
    and its result is dropped). *)
Theorem create_ignores_destroy env env' self w w' fqdn :
  PyStr.split "@" (name self) !! 1%nat = Some fqdn ->
  PyStr.truthy (executable env) = true ->
  PyStr.truthy (executable env') = true ->
  (forall i, run env "create" (calls "create" (events w) + i)
             = run env' "create" (calls "create" (events w') + i)) ->
  value (create env self w) = value (create env' self w').
Proof.
  intros Hname Hexe Hexe' Hsame.
  destruct (create_built env self w fqdn Hname) as [-> _].
  destruct (create_built env' self w' fqdn Hname) as [-> _].
  rewrite (create_loop_value env _ _ _ (config_path_built self (tmp_next w)) Hexe)
    by (cbn; lia).
  rewrite (create_loop_value env' _ _ _ (config_path_built self (tmp_next w')) Hexe')
    by (cbn; lia).
  rewrite !calls_built. f_equal.
  cbn [sw_tries sw_counter safe_while Nat.sub].
  generalize (calls "create" (events w)) (calls "create" (events w')) Hsame.
  generalize (@None bool). generalize 3%nat.
  intros budget. induction budget as [|budget IH]; intros s k k' Hk; [reflexivity|].
  cbn [verdict]. pose proof (Hk 0%nat) as H0. rewrite !Nat.add_0_r in H0. rewrite H0.
  assert (Hnext : forall i, run env "create" (S k + i) = run env' "create" (S k' + i)).
  { intros i. specialize (Hk (S i)).
    replace (S k + i)%nat with (k + S i)%nat by lia.
    replace (S k' + i)%nat with (k' + S i)%nat by lia. exact Hk. }
  rewrite (IH (Some false) _ _ Hnext), (IH s _ _ Hnext). reflexivity.
Qed.

Lemma create_ignores_destroy_sample :
  value (create Sample.env_conflict_once Sample.vm Sample.world0)
  = value (create Sample.env_conflict_destroy_fails Sample.vm Sample.world_built).
Proof.
  apply (create_ignores_destroy Sample.env_conflict_once
           Sample.env_conflict_destroy_fails Sample.vm Sample.world0
           Sample.world_built "vpm001.front.sepia.ceph.com");
    [reflexivity | reflexivity | reflexivity | intros i; reflexivity].
Defined.

(** X11.  On an identity without [@], [create] ends in the [IndexError]
    of [build_config] before any log record or subprocess, and leaves
    behind the empty temporary file it had just made; no other file
    changes. *)
Theorem create_malformed_identity env self w :
  PyStr.has_char "@" (name self) = false ->
  let res := create env self w in
  let p := tmpname (tmp_next w) in
  value res = Raise (IndexError "list index out of range")
  /\ events (snd res) = EvTempfile p :: events w
  /\ files (snd res) !! p = Some None
  /\ (forall q, q <> p -> files (snd res) !! q = files w !! q).
Proof.
  intros Hn res p. subst res.
  assert (Hname : PyStr.split "@" (name self) !! 1%nat = None)
    by (rewrite (split_no_sep _ _ Hn); reflexivity).
  unfold value, create. erewrite bind_raise by (apply build_config_bad, Hname).
  cbn [fst snd NamedTemporaryFile push events files].
  split; [reflexivity|]. split; [reflexivity|]. split.
  - apply lookup_insert_eq.
  - intros q Hq. apply lookup_insert_ne. intros E. apply Hq. symmetry. exact E.
Qed.

Lemma create_malformed_identity_sample :
  value (create Sample.env_ok Sample.vm_no_at Sample.world0)
  = Raise (IndexError "list index out of range")
  /\ events (snd (create Sample.env_ok Sample.vm_no_at Sample.world0))
     = [EvTempfile "/tmp/tmp0"]
  /\ files (snd (create Sample.env_ok Sample.vm_no_at Sample.world0)) !! "/tmp/tmp0"
     = Some None.
Proof.
  pose proof (create_malformed_identity Sample.env_ok Sample.vm_no_at Sample.world0
                eq_refl) as (H1 & H2 & H3 & _).
  split; [exact H1|]. split; [exact H2 | exact H3].
Defined.

(** ** Further properties: the descriptor file *)

Lemma lower_char_not_upper ch : is_upper (PyStr.lower_char ch) = false.
Proof. destruct ch as [[] [] [] [] [] [] [] []]; reflexivity. Qed.

Lemma lower_no_upper s : has_upper (PyStr.lower s) = false.
Proof.
  induction s as [|ch s IH]; [reflexivity|].
  cbn [PyStr.lower has_upper]. rewrite lower_char_not_upper, IH. reflexivity.
Qed.

Lemma lower_char_fixed ch : is_upper ch = false -> PyStr.lower_char ch = ch.
Proof. unfold is_upper, PyStr.lower_char. intros ->. reflexivity. Qed.

Lemma lower_fixed s : has_upper s = false -> PyStr.lower s = s.
Proof.
  induction s as [|ch s IH]; [reflexivity|].
  cbn [PyStr.lower has_upper]. intros H. apply orb_false_elim in H as [Hc Hs].
  rewrite (lower_char_fixed _ Hc), (IH Hs). reflexivity.
Qed.

Lemma tmpname_inj n m : tmpname n = tmpname m -> n = m.
Proof.
  unfold tmpname. intros H.
  change ("/tmp/tmp" ++ pretty n) with
    (String "/" (String "t" (String "m" (String "p" (String "/" (String "t"
       (String "m" (String "p" (pretty n))))))))) in H.
  change ("/tmp/tmp" ++ pretty m) with
    (String "/" (String "t" (String "m" (String "p" (String "/" (String "t"
       (String "m" (String "p" (pretty m))))))))) in H.
  injection H as H. apply (inj pretty) in H. exact H.
Qed.

(** X12.  For an identity with an [@], the descriptor [build_config]
    writes holds a distro name without upper-case letters, whatever the
    casing of [os_type] (and [os_type] itself when it has none), the
    distro version as given, and one network on front with the MAC
    address of the status. *)
Theorem build_config_distro self w fqdn :
  PyStr.split "@" (name self) !! 1%nat = Some fqdn ->
  exists doc,
    descriptor (snd (build_config self w)) (tmpname (tmp_next w)) = Some doc
    /\ has_upper (distro (downburst doc)) = false
    /\ (has_upper (os_type self) = false -> distro (downburst doc) = os_type self)
    /\ distroversion (downburst doc) = os_version self
    /\ networks (downburst doc) = [("front", mac_address (status self))].
Proof.
  intros Hname. rewrite (build_config_ok self w fqdn Hname). cbn [snd].
  rewrite descriptor_built. eexists. split; [reflexivity|].
  cbn [downburst distro distroversion networks file_info].
  split; [apply lower_no_upper|]. split; [apply lower_fixed|]. split; reflexivity.
Qed.

Lemma build_config_distro_sample :
  exists doc,
    descriptor (snd (build_config Sample.vm Sample.world0)) "/tmp/tmp0" = Some doc
    /\ has_upper (distro (downburst doc)) = false
    /\ (has_upper "Ubuntu" = false -> distro (downburst doc) = "Ubuntu")
    /\ distroversion (downburst doc) = "12.04"
    /\ networks (downburst doc) = [("front", "52:54:00:aa:bb:cc")].
Proof.
  exact (build_config_distro Sample.vm Sample.world0 "vpm001.front.sepia.ceph.com"
           eq_refl).
Defined.

(** X13.  [build_config] never removes the file of an earlier call: called
    twice on one controller it makes two different temporary files, both
    hold the descriptor afterwards, and [config_path] names the second
    only, so the first is out of reach of [remove_config]. *)
Theorem build_config_twice_leaks self w fqdn :
  PyStr.split "@" (name self) !! 1%nat = Some fqdn ->
  let p1 := tmpname (tmp_next w) in
  let p2 := tmpname (S (tmp_next w)) in
  let doc := {| downburst := file_info self; local_hostname := fqdn |} in
  exists w1 w2,
    build_config self w = (Ret (true, set_config_path self (Some p1)), w1)
    /\ build_config (set_config_path self (Some p1)) w1
       = (Ret (true, set_config_path self (Some p2)), w2)
    /\ p1 <> p2
    /\ descriptor w2 p1 = Some doc
    /\ descriptor w2 p2 = Some doc
    /\ events w2
       = EvDump p2 doc :: EvTempfile p2 :: EvDump p1 doc :: EvTempfile p1 :: events w.
Proof.
  intros Hname p1 p2 doc.
  exists (built self fqdn w),
         (built (set_config_path self (Some p1)) fqdn (built self fqdn w)).
  assert (Hne : p1 <> p2).
  { intros H. apply tmpname_inj in H. lia. }
  split; [apply build_config_ok, Hname|].
  split; [apply (build_config_ok (set_config_path self (Some p1))), Hname|].
  split; [exact Hne|].
  split; [|split].
  - unfold descriptor, built. cbn [files push tmp_next].
    fold p1 p2. rewrite !(lookup_insert_ne _ p2 p1) by congruence.
    rewrite lookup_insert_eq. reflexivity.
  - unfold descriptor, built. cbn [files push tmp_next]. fold p1 p2.
    rewrite lookup_insert_eq. reflexivity.
  - reflexivity.
Qed.

Lemma build_config_twice_leaks_sample :
  exists w1 w2,
    build_config Sample.vm Sample.world0 = (Ret (true, Sample.vm_built), w1)
    /\ build_config Sample.vm_built w1
       = (Ret (true, set_config_path Sample.vm (Some "/tmp/tmp1")), w2)
    /\ "/tmp/tmp0" <> "/tmp/tmp1"
    /\ descriptor w2 "/tmp/tmp0"
       = Some {| downburst := file_info Sample.vm;
                 local_hostname := "vpm001.front.sepia.ceph.com" |}
    /\ descriptor w2 "/tmp/tmp1"
       = Some {| downburst := file_info Sample.vm;
                 local_hostname := "vpm001.front.sepia.ceph.com" |}
    /\ events w2
       = [EvDump "/tmp/tmp1" (file_out Sample.vm "vpm001.front.sepia.ceph.com");
          EvTempfile "/tmp/tmp1";
          EvDump "/tmp/tmp0" (file_out Sample.vm "vpm001.front.sepia.ceph.com");
          EvTempfile "/tmp/tmp0"].
Proof.
  exact (build_config_twice_leaks Sample.vm Sample.world0 "vpm001.front.sepia.ceph.com"
           eq_refl).
Defined.

(** X14.  On a controller whose [config_path] is set, [remove_config]
    answers [True] exactly when the file existed; after either answer the
    file is not there, every other file is as it was, and [config_path]
    is cleared only when a file was removed. *)
Theorem remove_config_post self w p :
  config_path self = Some p ->
  let res := remove_config self w in
  let removed := bool_decide (is_Some (files w !! p)) in
  fst res = Ret (removed, if removed then set_config_path self None else self)
  /\ files (snd res) !! p = None
  /\ (forall q, q <> p -> files (snd res) !! q = files w !! q)
  /\ events (snd res) = if removed then EvRemove p :: events w else events w.
Proof.
  intros Hp res removed. subst res removed. unfold remove_config. rewrite Hp.
  erewrite bind_ret by reflexivity. cbn beta iota.
  destruct (bool_decide (is_Some (files w !! p))) eqn:Hb.
  - erewrite bind_ret by reflexivity. cbn [fst snd mret M_ret files events push].
    repeat split.
    + apply lookup_delete_eq.
    + intros q Hq. apply lookup_delete_ne. congruence.
  - cbn [fst snd mret M_ret]. repeat split.
    apply bool_decide_eq_false_1 in Hb.
    destruct (files w !! p) eqn:E; [|reflexivity].
    exfalso. apply Hb. eexists. reflexivity.
Qed.

Lemma remove_config_post_sample :
  fst (remove_config Sample.vm_built Sample.world0) = Ret (false, Sample.vm_built)
  /\ files (snd (remove_config Sample.vm_built Sample.world0)) !! "/tmp/tmp0" = None
  /\ events (snd (remove_config Sample.vm_built Sample.world_built))
     = [EvRemove "/tmp/tmp0";
        EvDump "/tmp/tmp0" (file_out Sample.vm "vpm001.front.sepia.ceph.com");
        EvTempfile "/tmp/tmp0"].
Proof.
  pose proof (remove_config_post Sample.vm_built Sample.world0 "/tmp/tmp0" eq_refl)
    as (H1 & H2 & _ & _).
  pose proof (remove_config_post Sample.vm_built Sample.world_built "/tmp/tmp0" eq_refl)
    as (_ & _ & _ & H3).
  split; [exact H1|]. split; [exact H2 | exact H3].
Defined.

(** X15.  [build_config] followed by [remove_config] is a round trip on
    the files: when the name of the temporary file was unused,
    [remove_config] answers [True] and the files are as before
    [build_config]. *)
Theorem build_then_remove_config self w fqdn :
  PyStr.split "@" (name self) !! 1%nat = Some fqdn ->
  files w !! tmpname (tmp_next w) = None ->
  exists self1 w1,
    build_config self w = (Ret (true, self1), w1)
    /\ fst (remove_config self1 w1) = Ret (true, set_config_path self None)
    /\ files (snd (remove_config self1 w1)) = files w.
Proof.
  intros Hname Hfresh.
  exists (set_config_path self (Some (tmpname (tmp_next w)))), (built self fqdn w).
  split; [apply build_config_ok, Hname|].
  unfold remove_config. cbn [config_path set_config_path].
  erewrite bind_ret by reflexivity. cbn beta iota.
  rewrite bool_decide_eq_true_2
    by (unfold built; cbn [files push]; rewrite lookup_insert_eq; eexists; reflexivity).
  erewrite bind_ret by reflexivity. cbn [fst snd mret M_ret files push built].
  split; [reflexivity|].
  rewrite delete_insert_eq. apply delete_insert_id. exact Hfresh.
Qed.

Lemma build_then_remove_config_sample :
  exists self1 w1,
    build_config Sample.vm Sample.world0 = (Ret (true, self1), w1)
    /\ fst (remove_config self1 w1) = Ret (true, set_config_path Sample.vm None)
    /\ files (snd (remove_config self1 w1)) = files Sample.world0.
Proof.
  apply (build_then_remove_config Sample.vm Sample.world0 "vpm001.front.sepia.ceph.com");
    reflexivity.
Defined.

(** X16.  Whenever [create] returns, with whatever value, its descriptor
    file is still there; the finalizer [__del__] of the controller then
    returns, removes that file and nothing else, and runs no
    subprocess. *)
Theorem create_then_del env self w v self' :
  fst (create env self w) = Ret (v, self') ->
  let p := tmpname (tmp_next w) in
  let w1 := snd (create env self w) in
  fst (__del__ self' w1) = Ret (tt, set_config_path self' None)
  /\ is_Some (descriptor w1 p)
  /\ files (snd (__del__ self' w1)) = delete p (files w)
  /\ popens (events (snd (__del__ self' w1))) = popens (events w1).
Proof.
  intros Hret p w1. subst w1.
  destruct (PyStr.split "@" (name self) !! 1%nat) as [fqdn|] eqn:Hname.
  2:{ unfold create in Hret.
      erewrite bind_raise in Hret by (apply build_config_bad, Hname). discriminate. }
  pose proof (create_built env self w fqdn Hname) as [Hv Hw].
  cbn zeta in Hv, Hw.
  destruct (create_loop_grows env _ _ _ (config_path_built self (tmp_next w))
              4 (safe_while 60 3) None (built self fqdn w)) as [Hf _].
  rewrite <- Hw in Hf.
  assert (Hself : self' = set_config_path self (Some p)).
  { unfold create in Hret.
    erewrite bind_ret in Hret by (apply build_config_ok, Hname). cbn beta iota zeta in Hret.
    unfold mbind, M_bind in Hret.
    destruct (create_loop _ _ _ _ _ _) as [[s|e] w2]; cbn in Hret;
      [injection Hret as _ <-; reflexivity | discriminate]. }
  assert (Hfile : files (snd (create env self w)) !! p
                  = Some (Some {| downburst := file_info self; local_hostname := fqdn |})).
  { rewrite Hf. unfold built. cbn [files push]. apply lookup_insert_eq. }
  unfold __del__, remove_config. rewrite Hself. cbn [config_path set_config_path].
  erewrite bind_ret.
  2:{ erewrite bind_ret by reflexivity. cbn beta iota.
      rewrite bool_decide_eq_true_2 by (rewrite Hfile; eexists; reflexivity).
      erewrite bind_ret by reflexivity. reflexivity. }
  cbn [fst snd mret M_ret files events push popens omap].
  split; [reflexivity|]. split.
  { unfold descriptor. rewrite Hfile. eexists. reflexivity. }
  split; [|reflexivity].
  rewrite Hf. unfold built. cbn [files push].
  rewrite !delete_insert_eq. reflexivity.
Qed.

Lemma create_then_del_sample :
  fst (__del__ Sample.vm_built (snd (create Sample.env_ok Sample.vm Sample.world0)))
  = Ret (tt, set_config_path Sample.vm_built None)
  /\ is_Some (descriptor (snd (create Sample.env_ok Sample.vm Sample.world0)) "/tmp/tmp0")
  /\ files (snd (__del__ Sample.vm_built
                   (snd (create Sample.env_ok Sample.vm Sample.world0))))
     = delete "/tmp/tmp0" (files Sample.world0)
  /\ popens (events (snd (__del__ Sample.vm_built
                            (snd (create Sample.env_ok Sample.vm Sample.world0)))))
     = popens (events (snd (create Sample.env_ok Sample.vm Sample.world0))).
Proof.
  exact (create_then_del Sample.env_ok Sample.vm Sample.world0 (Some true)
           Sample.vm_built eq_refl).
Defined.

(** ** Further properties: construction and the entry points *)

(** X17.  A controller that [__init__] returns has the status it was
    given, or the lock server's when none was given, its host from that
    status, and no descriptor; construction has no effect.  On such a
    controller [_run_create] raises [ValueError] and [remove_config], and
    with it the finalizer [__del__], raises [TypeError], each without any
    effect. *)
Theorem fresh_controller_has_no_descriptor env n t v st w d w' :
  __init__ env n t v st w = (Ret d, w') ->
  w' = w
  /\ Some (status d) = match st with Some s => Some s | None => get_status env n end
  /\ host d = decanonicalize_hostname env (vm_host_name (status d))
  /\ config_path d = None
  /\ _run_create env d w = (Raise (ValueError "I need a config_path!"), w)
  /\ remove_config d w = (Raise path_is_None, w)
  /\ __del__ d w = (Raise path_is_None, w).
Proof.
  unfold __init__. intros H.
  destruct (match st with Some s => Some s | None => get_status env n end) as [s|];
    [|discriminate].
  injection H as <- <-. repeat split.
Qed.

Lemma fresh_controller_has_no_descriptor_sample :
  Sample.world0 = Sample.world0
  /\ Some (status Sample.vm) = Some Sample.vm_status
  /\ host Sample.vm = "mira001"
  /\ config_path Sample.vm = None
  /\ _run_create Sample.env_ok Sample.vm Sample.world0
     = (Raise (ValueError "I need a config_path!"), Sample.world0)
  /\ remove_config Sample.vm Sample.world0 = (Raise path_is_None, Sample.world0)
  /\ __del__ Sample.vm Sample.world0 = (Raise path_is_None, Sample.world0).
Proof.
  exact (fresh_controller_has_no_descriptor Sample.env_ok
           "ubuntu@vpm001.front.sepia.ceph.com" "Ubuntu" "12.04" (Some Sample.vm_status)
           Sample.world0 Sample.vm Sample.world0 eq_refl).
Defined.

(** X18.  [create_if_vm] on any machine: without a status record it
    raises [AttributeError]; on a machine that is no VM it returns
    [False]; on a VM it raises the [TypeError] of the constructor call.
    The only effect it can have is the deprecation warning, logged on a
    VM when [ctx.config] has a downburst key: in no case does it run a
    subprocess, make a temporary file or change a file. *)
Theorem create_if_vm_outcome env ctx machine_name w :
  let res := create_if_vm env ctx machine_name w in
  fst res
  = match get_status env machine_name with
    | None => Raise (AttributeError "'NoneType' object has no attribute 'get'")
    | Some st => if is_vm st then Raise unexpected_machine_name else Ret (Some false)
    end
  /\ events (snd res)
     = match get_status env machine_name with
       | Some st =>
           if is_vm st && has_custom_config ctx
           then EvLog WARNING "Usage of a custom downburst config has been deprecated."
                :: events w
           else events w
       | None => events w
       end
  /\ files (snd res) = files w
  /\ popens (events (snd res)) = popens (events w)
  /\ tempfiles (events (snd res)) = tempfiles (events w).
Proof.
  intros res. subst res. unfold create_if_vm.
  destruct (get_status env machine_name) as [st|]; [|repeat split].
  destruct (is_vm st); cbn [negb]; [|repeat split].
  destruct (has_custom_config ctx); repeat split.
Qed.

(** X19.  [destroy_if_vm] never destroys anything: for every machine,
    owner and description it runs no subprocess and changes no file, and
    it ends by returning [True], returning [False], or raising the
    [TypeError] of the constructor call. *)
Theorem destroy_if_vm_never_destroys env ctx machine_name user desc w :
  let res := destroy_if_vm env ctx machine_name user desc w in
  popens (events (snd res)) = popens (events w)
  /\ files (snd res) = files w
  /\ (fst res = Ret true \/ fst res = Ret false \/ fst res = Raise unexpected_machine_name).
Proof.
  intros res. subst res. unfold destroy_if_vm.
  destruct (get_status env machine_name) as [st|]; [|repeat split; auto].
  destruct (is_vm st); cbn [negb]; [|repeat split; auto].
  destruct (bool_decide _); [repeat split; auto|].
  destruct (bool_decide _); repeat split; auto.
Qed.
